(** * Ruang Iklim dashboard: the readings feed and the setpoint store

    A shallow embedding of [src/app/page.tsx].  The source file holds two
    revisions of the page: the first one (bulk load of 300 rows, no realtime
    channel, no demo feed, no alert) is embedded in [Module Legacy]; the
    second one (DEMO_MODE switch, bulk load of 500 rows, realtime channel,
    alert on a failed save) is embedded at top level.

    Conventions of the embedding.
    - A JavaScript [number] is a rational ([Q]) for measurements and
      targets: the finite binary64 values are rationals, and the sums and
      products of the generator are rounded to binary64 ([round64], to
      nearest, ties to even) where the page computes them; NaN and the
      infinities are left out.  Identifiers and epoch milliseconds are
      integers ([Z]), on which the page's arithmetic is exact up to 2^53.
    - [T | null] and optional fields are [option T].
    - [Math.random()] and [new Date()] read from a [World] that is threaded
      through a small state monad.
    - Builtins of the host (date parsing and formatting, [toFixed]) are the
      fields of the class [Host]; the build-time constant [DEMO_MODE] is the
      field of the class [Build].
    - The page is event driven and single threaded: every callback runs to
      completion, so the page is a transition system [step] over [Event]s. *)

From Stdlib Require Import String DecimalString ZArith QArith Qabs Qround.
From Stdlib Require Import Qpower.
From Stdlib Require PrimFloat SpecFloat FloatOps.
From Stdlib Require Import Lia Lqa Bool.
From Stdlib Require Import List Permutation Sorted.
Import ListNotations.

Set Implicit Arguments.
Close Scope Q_scope.

(* ======================= TYPES ======================= *)

Module SensorRow.
Record t := mk {
  id : Z;
  timestamp : string;
  suhu : option Q;
  kelembapan : option Q;
  cahaya : option Q;
  suara : option Q;
  timestamp_wib : option string
}.

(** [{ ...row, timestamp_wib: w }] and [r.timestamp_wib = w]. *)
Definition with_wib (r : t) (w : string) : t :=
  mk (id r) (timestamp r) (suhu r) (kelembapan r) (cahaya r) (suara r)
     (Some w).

(** The four measurements of a row, in the order of METRICS. *)
Definition measurements (r : t) : list (option Q) :=
  [suhu r; kelembapan r; cahaya r; suara r].
End SensorRow.

Module SetpointRow.
Record t := mk {
  id : Z;
  suhu_target : option Q;
  kelembapan_target : option Q;
  cahaya_target : option Q;
  suara_target : option Q
}.
End SetpointRow.

(** The object type of the [setpoint] and [demoBase] states and of the
    [base] argument of the generator. *)
Module Setpoint.
Record t := mk {
  suhu : Q;
  kelembapan : Q;
  cahaya : Q;
  suara : Q
}.
End Setpoint.

Inductive MetricKey := K_suhu | K_kelembapan | K_cahaya | K_suara.

(** [row[key]] for a metric key. *)
Definition metric (r : SensorRow.t) (k : MetricKey) : option Q :=
  match k with
  | K_suhu => SensorRow.suhu r
  | K_kelembapan => SensorRow.kelembapan r
  | K_cahaya => SensorRow.cahaya r
  | K_suara => SensorRow.suara r
  end.

(** [{ ...s, [key]: v }] on the setpoint object. *)
Definition set_target (s : Setpoint.t) (k : MetricKey) (v : Q) : Setpoint.t :=
  match k with
  | K_suhu =>
      Setpoint.mk v (Setpoint.kelembapan s) (Setpoint.cahaya s) (Setpoint.suara s)
  | K_kelembapan =>
      Setpoint.mk (Setpoint.suhu s) v (Setpoint.cahaya s) (Setpoint.suara s)
  | K_cahaya =>
      Setpoint.mk (Setpoint.suhu s) (Setpoint.kelembapan s) v (Setpoint.suara s)
  | K_suara =>
      Setpoint.mk (Setpoint.suhu s) (Setpoint.kelembapan s) (Setpoint.cahaya s) v
  end.

(** The initial value passed to [useState] for [setpoint] and [demoBase]. *)
Definition initial_setpoint : Setpoint.t := Setpoint.mk 25 60 300 50.

(* ======================= HOST ======================= *)

(** Builtins the page calls and does not define. *)
Class Host := {
  (** [new Date(s).getTime()]; [None] is NaN (an invalid date). *)
  Date_getTime : string -> option Z;
  (** [d.toLocaleTimeString("id-ID", { timeZone: "Asia/Jakarta", ... })]. *)
  Date_toLocaleTimeString : option Z -> string;
  (** [d.toISOString()] of the date at the given epoch milliseconds. *)
  Date_toISOString : Z -> string;
  (** [x.toFixed(digits)]. *)
  Number_toFixed : Q -> nat -> string
}.

(** The build-time switch [const DEMO_MODE]. *)
Class Build := { DEMO_MODE : bool }.

(** The value the source ships with. *)
Definition shipped : Build := {| DEMO_MODE := false |}.
Definition demo_build : Build := {| DEMO_MODE := true |}.

(** What [Math.random()] and [new Date()] will answer, and how many answers
    have been consumed. *)
Record World := mkWorld {
  clock : nat -> Z;
  clock_reads : nat;
  dice : nat -> Q;
  dice_reads : nat
}.

Definition M (A : Type) : Type := World -> A * World.

Definition ret {A} (a : A) : M A := fun w => (a, w).

Definition bind {A B} (m : M A) (k : A -> M B) : M B :=
  fun w => let (a, w') := m w in k a w'.

Notation "x <- m ;; k" := (bind m (fun x => k))
  (at level 61, m at next level, right associativity).

(** [new Date()], as epoch milliseconds. *)
Definition Date_now : M Z :=
  fun w => (clock w (clock_reads w),
            mkWorld (clock w) (S (clock_reads w)) (dice w) (dice_reads w)).

(** [Math.random()]. *)
Definition Math_random : M Q :=
  fun w => (dice w (dice_reads w),
            mkWorld (clock w) (clock_reads w) (dice w) (S (dice_reads w))).

(** Every draw of [Math.random()] lies in [0, 1). *)
Definition fair (w : World) : Prop :=
  forall n, (0 <= dice w n)%Q /\ (dice w n < 1)%Q.

(* ======================= NUMBERS ======================= *)

(** [floor (log2 x)] of a positive rational. *)
Definition ilog2 (x : Q) : Z :=
  let k := (Z.log2 (Zpos (Qden x)) + 1)%Z in
  (Z.log2 (Qfloor (x * 2 ^ k)) - k)%Z.

(** The nearest integer, a tie going to the even one. *)
Definition rne (q : Q) : Z :=
  let f := Qfloor q in
  match (q - inject_Z f ?= 1 # 2)%Q with
  | Lt => f
  | Gt => (f + 1)%Z
  | Eq => if Z.even f then f else (f + 1)%Z
  end.

(** The binary64 value nearest to a positive rational: 53 significant bits
    in the binade of [x], and the fixed step 2^-1074 below 2^-1022. *)
Definition round_pos (x : Q) : Q :=
  let e := Z.max (ilog2 x) (-1022) in
  (inject_Z (rne (x * 2 ^ (52 - e))) * 2 ^ (e - 52))%Q.

(** Rounding to binary64, to nearest with ties to even.  The overflow to an
    infinity above 2^1024 is left out: no sum or product of the generator
    comes near it. *)
Definition round64 (x : Q) : Q :=
  match (0 ?= x)%Q with
  | Lt => round_pos x
  | Eq => 0%Q
  | Gt => (- round_pos (- x))%Q
  end.

(** A decimal literal of the source denotes the binary64 nearest to it. *)
Definition num (q : Q) : Q := round64 q.

(** [a + b], [a - b] and [a * b] on numbers. *)
Definition add64 (a b : Q) : Q := round64 (a + b).
Definition sub64 (a b : Q) : Q := round64 (a - b).
Definition mul64 (a b : Q) : Q := round64 (a * b).

(** The rational a finite primitive float stands for. *)
Definition Q_of_float (f : PrimFloat.float) : option Q :=
  match FloatOps.Prim2SF f with
  | SpecFloat.S754_zero _ => Some 0%Q
  | SpecFloat.S754_finite s m e =>
      Some (inject_Z (if s then Z.neg m else Z.pos m) * 2 ^ e)%Q
  | _ => None
  end.

(** The primitive float [f] is finite and stands for [q]. *)
Definition is_float (f : PrimFloat.float) (q : Q) : bool :=
  match Q_of_float f with
  | Some v => Qeq_bool v q
  | None => false
  end.

(* ======================= ARRAYS ======================= *)

(** [x ?? d]. *)
Definition nullish {A} (x : option A) (d : A) : A :=
  match x with Some v => v | None => d end.

(** [n || 0] on an integer: 0 is the only falsy integer. *)
Definition or_zero (n : option Z) : Z :=
  match n with
  | Some v => if (v =? 0)%Z then 0%Z else v
  | None => 0%Z
  end.

(** [l.length > 0 ? l[l.length - 1] : undefined]. *)
Definition last_row {A} (l : list A) : option A :=
  if 0 <? length l then nth_error l (length l - 1) else None.

(** [l.slice(start)]: a negative start counts from the end, and the start is
    clamped to the array. *)
Definition slice {A} (l : list A) (start : Z) : list A :=
  let len := Z.of_nat (length l) in
  let k := if (start <? 0)%Z then Z.max (len + start) 0 else Z.min start len in
  skipn (Z.to_nat k) l.

(** [l[i]]: [undefined] outside the array. *)
Definition index {A} (l : list A) (i : Z) : option A :=
  if (i <? 0)%Z then None else nth_error l (Z.to_nat i).

(** [l.shift()]: the array without its first element. *)
Definition shift {A} (l : list A) : list A := tl l.

Section ArraySort.
Variable A : Type.
(** The comparator's result; [None] is NaN, which [sort] reads as +0. *)
Variable cmp : A -> A -> option Z.

Definition before (a b : A) : bool := (nullish (cmp a b) 0 <=? 0)%Z.

Fixpoint insert_sorted (x : A) (l : list A) : list A :=
  match l with
  | [] => [x]
  | y :: l' => if before x y then x :: y :: l' else y :: insert_sorted x l'
  end.

(** [[...l].sort(cmp)]: [Array.prototype.sort] is a stable sort; it is
    embedded as the stable insertion sort. *)
Fixpoint Array_sort (l : list A) : list A :=
  match l with
  | [] => []
  | x :: l' => insert_sorted x (Array_sort l')
  end.
End ArraySort.

(** The last [k] elements. *)
Definition lastn {A} (k : nat) (l : list A) : list A :=
  skipn (length l - k) l.

(* ======================= SUPABASE ======================= *)

(** The [{ data, error }] object every supabase request resolves to. *)
Module Response.
Record t (A : Type) := mk {
  data : option A;
  error : option string
}.
End Response.

(** [supabase.from(table).select(columns).order(column, { ascending })
    .limit(count)]. *)
Record SelectQuery := mkSelect {
  q_from : string;
  q_select : string;
  q_order : string;
  q_ascending : bool;
  q_limit : nat
}.

(** The row handed to [supabase.from("setpoint").upsert]. *)
Record SetpointUpsert := mkUpsert {
  u_id : Z;
  u_suhu_target : Q;
  u_kelembapan_target : Q;
  u_cahaya_target : Q;
  u_suara_target : Q;
  u_updated_at : string
}.

(** Modelled from the spec: the remote store's answer to "select up to N rows
    from the readings collection" holds at most N rows (the client library
    is not part of the sources). *)
Definition honours (q : SelectQuery) (resp : Response.t (list SensorRow.t))
  : bool :=
  match Response.data resp with
  | Some rows => length rows <=? q_limit q
  | None => true
  end.

(* ======================= PAGE STATE ======================= *)

(** What the cleanup returned by the feed effect will release. *)
Inductive Handle :=
| Interval (h : nat)
| Channel (c : nat).

(** The six [useState] cells of [DashboardPage], followed by the resources
    the page holds in the host: live [setInterval] handles (each with the
    [demoBase] its callback closed over), subscribed realtime channels,
    requests awaiting their response, the [alert]s shown so far, the next
    unused handle and the cleanup of the last run of the feed effect. *)
Record Page := mkPage {
  data : list SensorRow.t;
  loadingData : bool;
  setpoint : Setpoint.t;
  savingSetpoint : bool;
  demoBase : Setpoint.t;
  activeMetric : MetricKey;
  intervals : list (nat * Setpoint.t);
  channels : list nat;
  selects : list (nat * SelectQuery);
  setpoint_select : bool;
  upsert : option (Setpoint.t * SetpointUpsert);
  alerts : list string;
  fresh : nat;
  cleanup : option Handle
}.

Definition setData (f : list SensorRow.t -> list SensorRow.t) (p : Page) :=
  mkPage (f (data p)) (loadingData p) (setpoint p) (savingSetpoint p)
    (demoBase p) (activeMetric p) (intervals p) (channels p) (selects p)
    (setpoint_select p) (upsert p) (alerts p) (fresh p) (cleanup p).

Definition setLoadingData (b : bool) (p : Page) :=
  mkPage (data p) b (setpoint p) (savingSetpoint p)
    (demoBase p) (activeMetric p) (intervals p) (channels p) (selects p)
    (setpoint_select p) (upsert p) (alerts p) (fresh p) (cleanup p).

Definition setSetpoint (f : Setpoint.t -> Setpoint.t) (p : Page) :=
  mkPage (data p) (loadingData p) (f (setpoint p)) (savingSetpoint p)
    (demoBase p) (activeMetric p) (intervals p) (channels p) (selects p)
    (setpoint_select p) (upsert p) (alerts p) (fresh p) (cleanup p).

Definition setSavingSetpoint (b : bool) (p : Page) :=
  mkPage (data p) (loadingData p) (setpoint p) b
    (demoBase p) (activeMetric p) (intervals p) (channels p) (selects p)
    (setpoint_select p) (upsert p) (alerts p) (fresh p) (cleanup p).

Definition setDemoBase (s : Setpoint.t) (p : Page) :=
  mkPage (data p) (loadingData p) (setpoint p) (savingSetpoint p)
    s (activeMetric p) (intervals p) (channels p) (selects p)
    (setpoint_select p) (upsert p) (alerts p) (fresh p) (cleanup p).

Definition setActiveMetric (k : MetricKey) (p : Page) :=
  mkPage (data p) (loadingData p) (setpoint p) (savingSetpoint p)
    (demoBase p) k (intervals p) (channels p) (selects p)
    (setpoint_select p) (upsert p) (alerts p) (fresh p) (cleanup p).

Definition set_intervals (l : list (nat * Setpoint.t)) (p : Page) :=
  mkPage (data p) (loadingData p) (setpoint p) (savingSetpoint p)
    (demoBase p) (activeMetric p) l (channels p) (selects p)
    (setpoint_select p) (upsert p) (alerts p) (fresh p) (cleanup p).

Definition set_channels (l : list nat) (p : Page) :=
  mkPage (data p) (loadingData p) (setpoint p) (savingSetpoint p)
    (demoBase p) (activeMetric p) (intervals p) l (selects p)
    (setpoint_select p) (upsert p) (alerts p) (fresh p) (cleanup p).

Definition set_selects (l : list (nat * SelectQuery)) (p : Page) :=
  mkPage (data p) (loadingData p) (setpoint p) (savingSetpoint p)
    (demoBase p) (activeMetric p) (intervals p) (channels p) l
    (setpoint_select p) (upsert p) (alerts p) (fresh p) (cleanup p).

Definition set_setpoint_select (b : bool) (p : Page) :=
  mkPage (data p) (loadingData p) (setpoint p) (savingSetpoint p)
    (demoBase p) (activeMetric p) (intervals p) (channels p) (selects p)
    b (upsert p) (alerts p) (fresh p) (cleanup p).

Definition set_upsert (u : option (Setpoint.t * SetpointUpsert)) (p : Page) :=
  mkPage (data p) (loadingData p) (setpoint p) (savingSetpoint p)
    (demoBase p) (activeMetric p) (intervals p) (channels p) (selects p)
    (setpoint_select p) u (alerts p) (fresh p) (cleanup p).

(** [alert(msg)]. *)
Definition alert (msg : string) (p : Page) :=
  mkPage (data p) (loadingData p) (setpoint p) (savingSetpoint p)
    (demoBase p) (activeMetric p) (intervals p) (channels p) (selects p)
    (setpoint_select p) (upsert p) (alerts p ++ [msg]) (fresh p) (cleanup p).

Definition set_fresh (n : nat) (p : Page) :=
  mkPage (data p) (loadingData p) (setpoint p) (savingSetpoint p)
    (demoBase p) (activeMetric p) (intervals p) (channels p) (selects p)
    (setpoint_select p) (upsert p) (alerts p) n (cleanup p).

Definition set_cleanup (c : option Handle) (p : Page) :=
  mkPage (data p) (loadingData p) (setpoint p) (savingSetpoint p)
    (demoBase p) (activeMetric p) (intervals p) (channels p) (selects p)
    (setpoint_select p) (upsert p) (alerts p) (fresh p) c.

(** The page before its first render: the [useState] initial values and no
    resource held. *)
Definition blank : Page :=
  mkPage [] true initial_setpoint false initial_setpoint K_suhu
    [] [] [] false None [] 0 None.

(** Numeric equality of the four dependencies
    [[setpoint.suhu, setpoint.kelembapan, setpoint.cahaya, setpoint.suara]]. *)
Definition same_targets (a b : Setpoint.t) : bool :=
  Qeq_bool (Setpoint.suhu a) (Setpoint.suhu b)
  && Qeq_bool (Setpoint.kelembapan a) (Setpoint.kelembapan b)
  && Qeq_bool (Setpoint.cahaya a) (Setpoint.cahaya b)
  && Qeq_bool (Setpoint.suara a) (Setpoint.suara b).

(* ======================= CONSTANTS ======================= *)

Section Page.
Context {host : Host} {build : Build}.

Definition toWIB (iso : string) : string :=
  Date_toLocaleTimeString (Date_getTime iso).

Definition noise (range : Q) : M Q :=
  r <- Math_random ;; ret (sub64 (mul64 (mul64 r range) (num 2)) range).

Definition generateDemoData (base : Setpoint.t) (last : option SensorRow.t)
  : M SensorRow.t :=
  let id := (or_zero (option_map SensorRow.id last) + 1)%Z in
  t1 <- Date_now ;;
  t2 <- Date_now ;;
  n1 <- noise (num 0.3) ;;
  n2 <- noise (num 1) ;;
  n3 <- noise (num 5) ;;
  n4 <- noise (num 2) ;;
  ret (SensorRow.mk id
         (Date_toISOString t1)
         (Some (add64 (Setpoint.suhu base) n1))
         (Some (add64 (Setpoint.kelembapan base) n2))
         (Some (add64 (Setpoint.cahaya base) n3))
         (Some (add64 (Setpoint.suara base) n4))
         (Some (toWIB (Date_toISOString t2)))).

(** The updater the interval callback passes to [setData]. *)
Definition tick (demoBase : Setpoint.t) (prev : list SensorRow.t)
  : M (list SensorRow.t) :=
  let last := last_row prev in
  next <- generateDemoData demoBase last ;;
  let trimmed :=
    if 500 <=? length prev
    then slice prev (Z.of_nat (length prev) - 499)
    else prev in
  ret (trimmed ++ [next]).

(* ------------ FETCH SENSOR / DEMO DATA ------------ *)

(** [(a, b) => new Date(a.timestamp).getTime() - new Date(b.timestamp).getTime()]. *)
Definition byTimestamp (a b : SensorRow.t) : option Z :=
  match Date_getTime (SensorRow.timestamp a),
        Date_getTime (SensorRow.timestamp b) with
  | Some x, Some y => Some (x - y)%Z
  | _, _ => None
  end.

(** [(row) => ({ ...row, timestamp_wib: toWIB(row.timestamp) })]. *)
Definition add_wib (row : SensorRow.t) : SensorRow.t :=
  SensorRow.with_wib row (toWIB (SensorRow.timestamp row)).

(** The query [fetchInitial] builds. *)
Definition sensor_logs_query : SelectQuery :=
  mkSelect "sensor_logs" "*" "timestamp" false 500.

(** [fetchInitial] up to its [await]: the request is on its way. *)
Definition fetchInitial_start (p : Page) : Page :=
  let p := setLoadingData true p in
  set_fresh (S (fresh p))
    (set_selects ((fresh p, sensor_logs_query) :: selects p) p).

(** [fetchInitial] from its [await] on. *)
Definition fetchInitial_resume (resp : Response.t (list SensorRow.t))
  (p : Page) : Page :=
  let p :=
    match Response.error resp, Response.data resp with
    | None, Some rows =>
        let sorted := Array_sort byTimestamp rows in
        let withWIB := map add_wib sorted in
        setData (fun _ => withWIB) p
    | _, _ => p
    end in
  setLoadingData false p.

(** The updater the realtime INSERT handler passes to [setData]. *)
Definition onInsert (payload : SensorRow.t) (prev : list SensorRow.t)
  : list SensorRow.t :=
  let r := SensorRow.with_wib payload (toWIB (SensorRow.timestamp payload)) in
  let updated := prev ++ [r] in
  if 1000 <? length updated then shift updated else updated.

(** [clearInterval(h)]. *)
Definition clearInterval (h : nat) (p : Page) : Page :=
  set_intervals (filter (fun e => negb (fst e =? h)) (intervals p)) p.

(** [supabase.removeChannel(c)]. *)
Definition removeChannel (c : nat) (p : Page) : Page :=
  set_channels (filter (fun x => negb (x =? c)) (channels p)) p.

(** The body of the feed effect, [useEffect(..., [demoBase])]. *)
Definition effect_run (p : Page) : Page :=
  if DEMO_MODE then
    let p := setLoadingData false p in
    let interval := fresh p in
    let p := set_fresh (S interval)
               (set_intervals ((interval, demoBase p) :: intervals p) p) in
    set_cleanup (Some (Interval interval)) p
  else
    let p := fetchInitial_start p in
    let channel := fresh p in
    let p := set_fresh (S channel) (set_channels (channel :: channels p) p) in
    set_cleanup (Some (Channel channel)) p.

(** The function the feed effect returned, called by React when the
    effect's scope ends. *)
Definition effect_cleanup (p : Page) : Page :=
  match cleanup p with
  | Some (Interval interval) => set_cleanup None (clearInterval interval p)
  | Some (Channel channel) => set_cleanup None (removeChannel channel p)
  | None => p
  end.

(* ------------ FETCH SETPOINT ------------ *)

(** [load] of the setpoint effect, from its [await] on. *)
Definition load_resume (resp : Response.t SetpointRow.t) (p : Page) : Page :=
  match Response.error resp, Response.data resp with
  | None, Some d =>
      let s := Setpoint.mk
                 (nullish (SetpointRow.suhu_target d) 25%Q)
                 (nullish (SetpointRow.kelembapan_target d) 60%Q)
                 (nullish (SetpointRow.cahaya_target d) 300%Q)
                 (nullish (SetpointRow.suara_target d) 50%Q) in
      let p := setSetpoint (fun _ => s) p in
      if DEMO_MODE then setDemoBase s p else p
  | _, _ => p
  end.

(* ------------ UPDATE DEMO BASE KALAU SETPOINT BERUBAH ------------ *)

(** The effect on [[setpoint.suhu, ...]], run when one of the four numbers
    differs from its value at the previous render. *)
Definition sync_demoBase (before : Setpoint.t) (p : Page) : Page :=
  if DEMO_MODE && negb (same_targets before (setpoint p))
  then setDemoBase (setpoint p) p
  else p.

(* ------------ SAVE SETPOINT ------------ *)

(** [handleSaveSetpoint] up to its [await]. *)
Definition handleSaveSetpoint_start (now : Z) (p : Page) : Page :=
  let row :=
    mkUpsert 1
      (Setpoint.suhu (setpoint p)) (Setpoint.kelembapan (setpoint p))
      (Setpoint.cahaya (setpoint p)) (Setpoint.suara (setpoint p))
      (Date_toISOString now) in
  set_upsert (Some (setpoint p, row)) (setSavingSetpoint true p).

(** [handleSaveSetpoint] from its [await] on; [captured] is the [setpoint]
    the closure was created with. *)
Definition handleSaveSetpoint_resume (captured : Setpoint.t)
  (resp : Response.t unit) (p : Page) : Page :=
  let p :=
    match Response.error resp with
    | Some _ => alert "Gagal menyimpan setpoint!" p
    | None => if DEMO_MODE then setDemoBase captured p else p
    end in
  setSavingSetpoint false p.

(* ======================= RENDER ======================= *)

(** [data.length > 0 ? data[data.length - 1] : null]. *)
Definition latest (p : Page) : option SensorRow.t := last_row (data p).

(** The text [MetricCard] shows for its [value]. *)
Definition MetricCard (value : option Q) : string :=
  match value with
  | Some v => Number_toFixed v 1
  | None => "--"
  end.

(** The card of metric [k]:
    [value={latest ? (latest[m.key] as number | null) : null}]. *)
Definition card (p : Page) (k : MetricKey) : string :=
  MetricCard (match latest p with Some r => metric r k | None => None end).

(* ======================= EVENTS ======================= *)

Inductive Event :=
| Rerun
| Unmount
| Tick (interval : nat) (w : World)
| Selected (request : nat) (resp : Response.t (list SensorRow.t))
| Inserted (channel : nat) (payload : SensorRow.t)
| SetpointSelected (resp : Response.t SetpointRow.t)
| Change (k : MetricKey) (v : Q)
| Save (now : Z)
| Upserted (resp : Response.t unit)
| Select (k : MetricKey).

(** The first render: the three effects run in source order. *)
Definition mount (p : Page) : Page :=
  let p := effect_run p in
  let p := set_setpoint_select true p in
  if DEMO_MODE then setDemoBase (setpoint p) p else p.

(** One callback, run to completion; [None] when the host cannot deliver
    the event in this state: an interval fires only while it is registered,
    a channel delivers only while it is subscribed, and a response arrives
    only for a request that awaits it.  [Rerun] is React running the feed
    effect again (its cleanup first), which it does after [demoBase]
    changed, and [Unmount] is React running the cleanup alone; both are
    allowed at any time, which covers every schedule React can choose. *)
Definition step (e : Event) (p : Page) : option Page :=
  match e with
  | Rerun => Some (effect_run (effect_cleanup p))
  | Unmount => Some (effect_cleanup p)
  | Tick interval w =>
      match find (fun e => fst e =? interval) (intervals p) with
      | Some (_, base) => Some (setData (fun prev => fst (tick base prev w)) p)
      | None => None
      end
  | Selected request resp =>
      match find (fun e => fst e =? request) (selects p) with
      | Some (_, q) =>
          if honours q resp
          then Some (fetchInitial_resume resp
                       (set_selects
                          (filter (fun e => negb (fst e =? request)) (selects p))
                          p))
          else None
      | None => None
      end
  | Inserted channel payload =>
      if existsb (Nat.eqb channel) (channels p)
      then Some (setData (onInsert payload) p)
      else None
  | SetpointSelected resp =>
      if setpoint_select p
      then Some (sync_demoBase (setpoint p)
                   (load_resume resp (set_setpoint_select false p)))
      else None
  | Change k v =>
      Some (sync_demoBase (setpoint p)
              (setSetpoint (fun s => set_target s k v) p))
  | Save now =>
      if savingSetpoint p then None
      else Some (handleSaveSetpoint_start now p)
  | Upserted resp =>
      match upsert p with
      | Some (captured, _) =>
          Some (handleSaveSetpoint_resume captured resp (set_upsert None p))
      | None => None
      end
  | Select k => Some (setActiveMetric k p)
  end.

Fixpoint run (es : list Event) (p : Page) : option Page :=
  match es with
  | [] => Some p
  | e :: es' =>
      match step e p with
      | Some p' => run es' p'
      | None => None
      end
  end.

Inductive reachable : Page -> Prop :=
| reach_mount : reachable (mount blank)
| reach_step e p p' : reachable p -> step e p = Some p' -> reachable p'.

(** The events a handle's callback is invoked by. *)
Definition fires (h : Handle) (e : Event) : bool :=
  match h, e with
  | Interval i, Tick j _ => i =? j
  | Channel c, Inserted d _ => c =? d
  | _, _ => false
  end.

(** [n] ticks of the interval, one baseline per tick. *)
Fixpoint ticks (bases : list Setpoint.t) (prev : list SensorRow.t)
  : M (list SensorRow.t) :=
  match bases with
  | [] => ret prev
  | b :: bs => buf <- tick b prev ;; ticks bs buf
  end.


(* ======================= ORDER AND INVARIANTS ======================= *)

(** The instant a row is stamped with; [None] when its timestamp does not
    parse. *)
Definition instant (r : SensorRow.t) : option Z :=
  Date_getTime (SensorRow.timestamp r).

(** Every timestamp parses. *)
Definition dated (rows : list SensorRow.t) : Prop :=
  Forall (fun r => instant r <> None) rows.

(** [a] is stamped no later than [b], and strictly before [b]. *)
Definition not_after (a b : SensorRow.t) : Prop :=
  match instant a, instant b with
  | Some x, Some y => (x <= y)%Z
  | _, _ => False
  end.

Definition earlier (a b : SensorRow.t) : Prop :=
  match instant a, instant b with
  | Some x, Some y => (x < y)%Z
  | _, _ => False
  end.

(** The number a handle was created with. *)
Definition handle_id (h : Handle) : nat :=
  match h with Interval i => i | Channel c => c end.

(** What every reachable page satisfies: the buffer holds at most 1000
    rows, every awaited select asks for at most 500 rows, and every handle
    in use is older than the next handle. *)
Definition wf (p : Page) : Prop :=
  length (data p) <= 1000
  /\ Forall (fun e => q_limit (snd e) <= 500) (selects p)
  /\ Forall (fun e => fst e < fresh p) (intervals p)
  /\ Forall (fun c => c < fresh p) (channels p)
  /\ (forall h, cleanup p = Some h -> handle_id h < fresh p).

(** The feed effect holds an interval in demo mode and a channel otherwise. *)
Definition of_mode (h : Handle) : Prop :=
  if DEMO_MODE
  then exists i, h = Interval i
  else exists c, h = Channel c.

(** The handle has been released: its number is used up and neither
    registry holds it. *)
Definition released (h : Handle) (p : Page) : Prop :=
  handle_id h < fresh p
  /\ match h with
     | Interval i => ~ In i (map fst (intervals p))
     | Channel c => ~ In c (channels p)
     end.

End Page.

(* ======================= FIRST REVISION ======================= *)

(** The first revision of the page.  It has no [demoBase] cell, no interval
    and no realtime channel; its handlers run on the same [Page] record and
    leave those fields alone. *)
Module Legacy.
Section Page.
Context {host : Host}.

(** The query [load] builds. *)
Definition sensor_logs_query : SelectQuery :=
  mkSelect "sensor_logs" "*" "timestamp" false 300.

(** [load] up to its [await]. *)
Definition load_start (p : Page) : Page :=
  let p := setLoadingData true p in
  set_fresh (S (fresh p))
    (set_selects ((fresh p, sensor_logs_query) :: selects p) p).

(** [load] from its [await] on. *)
Definition load_resume (resp : Response.t (list SensorRow.t)) (p : Page)
  : Page :=
  let p :=
    match Response.error resp, Response.data resp with
    | None, Some rows =>
        let sorted := Array_sort byTimestamp rows in
        setData (fun _ => map add_wib sorted) p
    | _, _ => p
    end in
  setLoadingData false p.

(** [loadSetpoint] from its [await] on: only [data] is read. *)
Definition loadSetpoint_resume (resp : Response.t SetpointRow.t) (p : Page)
  : Page :=
  match Response.data resp with
  | Some d =>
      setSetpoint
        (fun _ =>
           Setpoint.mk
             (nullish (SetpointRow.suhu_target d) 25%Q)
             (nullish (SetpointRow.kelembapan_target d) 60%Q)
             (nullish (SetpointRow.cahaya_target d) 300%Q)
             (nullish (SetpointRow.suara_target d) 50%Q))
        p
  | None => p
  end.

(** [handleSaveSetpoint] up to its [await]. *)
Definition handleSaveSetpoint_start (now : Z) (p : Page) : Page :=
  let row :=
    mkUpsert 1
      (Setpoint.suhu (setpoint p)) (Setpoint.kelembapan (setpoint p))
      (Setpoint.cahaya (setpoint p)) (Setpoint.suara (setpoint p))
      (Date_toISOString now) in
  set_upsert (Some (setpoint p, row)) (setSavingSetpoint true p).

(** [handleSaveSetpoint] from its [await] on: the response is dropped. *)
Definition handleSaveSetpoint_resume (resp : Response.t unit) (p : Page)
  : Page :=
  setSavingSetpoint false p.

(** [data[data.length - 1] ?? null]. *)
Definition latest (p : Page) : option SensorRow.t :=
  index (data p) (Z.of_nat (length (data p)) - 1).

(** The card of metric [k]; [MetricCard] is the same in both revisions. *)
Definition card (p : Page) (k : MetricKey) : string :=
  MetricCard (match latest p with Some r => metric r k | None => None end).

End Page.
End Legacy.

(* ======================= SAMPLE DATA ======================= *)

(** A host to run the page on concrete inputs: timestamps are written as
    decimal epoch milliseconds, and [toFixed] rounds half up on the exact
    value. *)
Definition sample_toFixed (x : Q) (digits : nat) : string :=
  let scale := (10 ^ Z.of_nat digits)%Z in
  let n := Qfloor (Qabs x * inject_Z scale + (1 # 2))%Q in
  let whole := NilZero.string_of_uint (N.to_uint (Z.to_N (n / scale))) in
  let frac := NilZero.string_of_uint (N.to_uint (Z.to_N (n mod scale + scale))) in
  ((if Qlt_le_dec x 0 then "-" else "") ++ whole
   ++ match frac with
      | String _ rest => if (digits =? 0)%nat then "" else "." ++ rest
      | EmptyString => ""
      end)%string.

Definition sample_host : Host := {|
  Date_getTime := fun s => option_map Z.of_int (NilZero.int_of_string s);
  Date_toLocaleTimeString := fun d =>
    match d with
    | Some ms => NilZero.string_of_int (Z.to_int ((ms / 1000) mod 86400))
    | None => "Invalid Date"%string
    end;
  Date_toISOString := fun ms => NilZero.string_of_int (Z.to_int ms);
  Number_toFixed := sample_toFixed
|}.

(** A world whose clock advances by one second per read and whose draws are
    all one half. *)
Definition sample_world : World :=
  mkWorld (fun n => 1700000000000 + 1000 * Z.of_nat n)%Z 0 (fun _ => (1 # 2)%Q) 0.

Definition ok {A} (a : A) : Response.t A := Response.mk (Some a) None.
Definition failed {A} (msg : string) : Response.t A :=
  Response.mk None (Some msg).
Definition absent {A} : Response.t A := Response.mk None None.

Definition sample_row (i : Z) (ts : string) (v : option Q) : SensorRow.t :=
  SensorRow.mk i ts v (Some 55%Q) None (Some 40%Q) None.

(** The page right after its first render, as the shipped build mounts it. *)
Definition shipped_page : Page := mount (build := shipped) blank.

(** Newest first, as the remote store answers them. *)
Definition sample_rows : list SensorRow.t :=
  [sample_row 3 "1700000003000" (Some 26%Q);
   sample_row 2 "1700000002000" None;
   sample_row 1 "1700000001000" (Some 24%Q)].

(** A measurement between [base - range] and [base + range] as the page's
    arithmetic evaluates these two expressions. *)
Definition within64 (range base : Q) (m : option Q) : Prop :=
  exists v, m = Some v
            /\ (sub64 base (num range) <= v)%Q
            /\ (v <= add64 base (num range))%Q.



(** The bulk load [start] asks the readings table for its [n] newest rows:
    whatever the page, it leaves one more select awaited, on "sensor_logs",
    ordered by "timestamp" descending and limited to [n] rows. *)
Definition requests_newest (n : nat) (start : Page -> Page) : Prop :=
  forall p,
    selects (start p)
    = (fresh p, mkSelect "sensor_logs" "*" "timestamp" false n) :: selects p.

(** The continuation [resume] of a save shows exactly one more alert
    whenever the upsert failed. *)
Definition one_alert_on_failure (resume : Response.t unit -> Page -> Page)
  : Prop :=
  forall resp p,
    Response.error resp <> None ->
    length (alerts (resume resp p)) = S (length (alerts p)).

(** [actual] is the stored value when there is one and [default] otherwise. *)
Definition stored_or (default : Q) (stored : option Q) (actual : Q) : Prop :=
  match stored with
  | Some v => actual = v
  | None => actual = default
  end.

(** A stored setpoint row without a humidity target. *)
Definition sample_setpoint_row : SetpointRow.t :=
  SetpointRow.mk 1 (Some (45 # 2)%Q) None (Some 450%Q) (Some 35%Q).

(* ======================= VIEW CONSTANTS ======================= *)

Module Metric.
Record t := mk {
  key : MetricKey;
  label : string;
  unit : string
}.
End Metric.

Definition METRICS : list Metric.t :=
  [Metric.mk K_suhu "Suhu" "°C";
   Metric.mk K_kelembapan "Kelembapan" "%";
   Metric.mk K_cahaya "Cahaya" "lux";
   Metric.mk K_suara "Suara" "dB"].

(** [a === b] on metric keys. *)
Definition MetricKey_eqb (a b : MetricKey) : bool :=
  match a, b with
  | K_suhu, K_suhu | K_kelembapan, K_kelembapan
  | K_cahaya, K_cahaya | K_suara, K_suara => true
  | _, _ => false
  end.

(** [METRICS.find((m) => m.key === activeMetric)]; the page reads the
    result through a non-null assertion. *)
Definition activeMeta (activeMetric : MetricKey) : option Metric.t :=
  find (fun m => MetricKey_eqb (Metric.key m) activeMetric) METRICS.

(** [setpoint[k]], as the control rows read it ([value={setpoint.suhu}]). *)
Definition target (s : Setpoint.t) (k : MetricKey) : Q :=
  match k with
  | K_suhu => Setpoint.suhu s
  | K_kelembapan => Setpoint.kelembapan s
  | K_cahaya => Setpoint.cahaya s
  | K_suara => Setpoint.suara s
  end.

(** The condition under which the two charts are rendered instead of
    "Belum ada data.": [!loadingData && data.length > 0]. *)
Definition shows_chart (p : Page) : bool :=
  negb (loadingData p) && (0 <? length (data p)).

(* ======================= MORE INVARIANTS ======================= *)

(** The feed effect holds at most one resource: the registries hold
    exactly what the pending cleanup will release. *)
Definition one_resource (p : Page) : Prop :=
  match cleanup p with
  | Some (Interval i) =>
      channels p = [] /\ exists base, intervals p = [(i, base)]
  | Some (Channel c) => intervals p = [] /\ channels p = [c]
  | None => intervals p = [] /\ channels p = []
  end.

(** Every awaited select was numbered before the next handle. *)
Definition selects_numbered (p : Page) : Prop :=
  Forall (fun e => fst e < fresh p) (selects p).

(** The upsert in flight, if any, carries the targets captured at the
    click under the fixed key 1, and the saving flag is up exactly then. *)
Definition saving_tracks_upsert (p : Page) : Prop :=
  match upsert p with
  | Some (captured, row) =>
      savingSetpoint p = true
      /\ u_id row = 1%Z
      /\ u_suhu_target row = Setpoint.suhu captured
      /\ u_kelembapan_target row = Setpoint.kelembapan captured
      /\ u_cahaya_target row = Setpoint.cahaya captured
      /\ u_suara_target row = Setpoint.suara captured
  | None => savingSetpoint p = false
  end.

(** Newest first: each row is stamped strictly after the rows behind it. *)
Definition newest_first {host : Host} (rows : list SensorRow.t) : Prop :=
  StronglySorted (fun a b => earlier b a) rows.

(** The row carries the formatted form of its own timestamp. *)
Definition wib_matches {host : Host} (r : SensorRow.t) : Prop :=
  SensorRow.timestamp_wib r = Some (toWIB (SensorRow.timestamp r)).

(** The shipped page after a bulk load of the sample rows and one push. *)
Definition loaded_page : Page :=
  match run (host := sample_host) (build := shipped)
          [Selected 0 (ok sample_rows);
           Inserted 1 (sample_row 7 "1700000007000" None)]
          shipped_page with
  | Some p => p
  | None => shipped_page
  end.

(** A buffer of 1000 readings, the oldest one unlike the others. *)
Definition full_buffer : list SensorRow.t :=
  sample_row 1 "1700000001000" (Some 24%Q)
  :: repeat (sample_row 2 "1700000002000" None) 999.

(** The page right after its first render in the demo build. *)
Definition demo_page : Page := mount (build := demo_build) blank.

(** The sample rows as a bulk load leaves them, oldest first. *)
Definition sample_buffer : list SensorRow.t :=
  map (add_wib (host := sample_host)) (rev sample_rows).

(* ======================= PROPERTIES ======================= *)

(** ** Arrays *)

Lemma last_row_snoc {A} (l : list A) (x : A) : last_row (l ++ [x]) = Some x.
Proof.
  unfold last_row. rewrite length_app. simpl.
  replace (0 <? length l + 1) with true by (symmetry; apply Nat.ltb_lt; lia).
  rewrite nth_error_app2 by lia.
  replace (length l + 1 - 1 - length l) with 0 by lia. reflexivity.
Qed.

Lemma lastn_length {A} (k : nat) (l : list A) :
  length (lastn k l) = Nat.min k (length l).
Proof. unfold lastn. rewrite length_skipn. lia. Qed.

Lemma lastn_all {A} (k : nat) (l : list A) :
  length l <= k -> lastn k l = l.
Proof.
  intros H. unfold lastn. replace (length l - k) with 0 by lia. reflexivity.
Qed.


Lemma slice_tail {A} (l : list A) (k : nat) :
  k <= length l -> slice l (Z.of_nat (length l) - Z.of_nat k) = lastn k l.
Proof.
  intros H. unfold slice, lastn.
  replace (Z.of_nat (length l) - Z.of_nat k <? 0)%Z with false
    by (symmetry; apply Z.ltb_ge; lia).
  f_equal. lia.
Qed.

Lemma lastn_snoc {A} (k : nat) (l : list A) (x : A) :
  k <= length l -> lastn (S k) (l ++ [x]) = lastn k l ++ [x].
Proof.
  intros H. unfold lastn. rewrite length_app. simpl.
  replace (length l + 1 - S k) with (length l - k) by lia.
  rewrite skipn_app.
  replace (length l - k - length l) with 0 by lia. reflexivity.
Qed.


(** ** Rounding to binary64 *)

Unset Implicit Arguments.

Lemma two_pos (z : Z) : (0 < 2 ^ z)%Q.
Proof. apply Qpower_0_lt. reflexivity. Qed.

Lemma two_mono (a b : Z) : (a <= b)%Z -> (2 ^ a <= 2 ^ b)%Q.
Proof. intros H. apply Qpower_le_compat_l; [exact H | discriminate]. Qed.

Lemma two_add (a b : Z) : (2 ^ (a + b) == 2 ^ a * 2 ^ b)%Q.
Proof. apply Qpower_plus. discriminate. Qed.

Lemma two_inject (n : Z) : (0 <= n)%Z -> (inject_Z (2 ^ n) == 2 ^ n)%Q.
Proof. intros H. exact (Zpower_Qpower 2 n H). Qed.

Lemma two_cancel (x : Q) (k : Z) : (x * 2 ^ k * 2 ^ (- k) == x)%Q.
Proof.
  rewrite <- Qmult_assoc, <- two_add, Z.add_opp_diag_r.
  change (2 ^ 0)%Q with 1%Q. apply Qmult_1_r.
Qed.

Lemma ilog2_spec (x : Q) :
  (0 < x)%Q -> (2 ^ ilog2 x <= x)%Q /\ (x < 2 ^ (ilog2 x + 1))%Q.
Proof.
  intros Hx. unfold ilog2.
  set (k := (Z.log2 (Zpos (Qden x)) + 1)%Z).
  set (y := (x * 2 ^ k)%Q). set (m := Qfloor y). set (L := Z.log2 m).
  assert (Hk : (0 <= k)%Z) by (pose proof (Z.log2_nonneg (Zpos (Qden x))); lia).
  assert (Hy : (1 <= y)%Q).
  { unfold y. rewrite <- (two_inject k Hk).
    assert (Hd : (Zpos (Qden x) < 2 ^ k)%Z).
    { unfold k. apply Z.log2_spec. reflexivity. }
    destruct x as [n d]. unfold Qlt in Hx. cbn in Hx, Hd |- *.
    unfold Qle. cbn. nia. }
  assert (Hm : (1 <= m)%Z).
  { unfold m. change 1%Z with (Qfloor 1). now apply Qfloor_resp_le. }
  destruct (Z.log2_spec m) as [H1 H2]; [lia |]. fold L in H1, H2.
  assert (HL : (0 <= L)%Z) by apply Z.log2_nonneg.
  assert (Hlo : (2 ^ L <= y)%Q).
  { rewrite <- (two_inject L HL).
    eapply Qle_trans; [| apply Qfloor_le]. fold m.
    rewrite <- Zle_Qle. exact H1. }
  assert (Hhi : (y < 2 ^ (L + 1))%Q).
  { rewrite <- (two_inject (L + 1)) by lia.
    eapply Qlt_le_trans; [apply Qlt_floor |]. fold m.
    rewrite <- Zle_Qle. change (Z.succ L) with (L + 1)%Z in H2. lia. }
  assert (Ex : (x == y * 2 ^ (- k))%Q) by (unfold y; now rewrite two_cancel).
  split.
  - rewrite Ex. replace (L - k)%Z with (L + - k)%Z by lia.
    rewrite two_add. apply Qmult_le_compat_r; [exact Hlo |].
    apply Qlt_le_weak, two_pos.
  - rewrite Ex. replace (L - k + 1)%Z with (L + 1 + - k)%Z by lia.
    rewrite two_add. apply Qmult_lt_compat_r; [apply two_pos | exact Hhi].
Qed.

Lemma ilog2_mono (x y : Q) :
  (0 < x)%Q -> (x <= y)%Q -> (ilog2 x <= ilog2 y)%Z.
Proof.
  intros Hx Hxy.
  destruct (ilog2_spec x Hx) as [H1 _].
  destruct (ilog2_spec y (Qlt_le_trans _ _ _ Hx Hxy)) as [_ H2].
  assert (H : (2 ^ ilog2 x < 2 ^ (ilog2 y + 1))%Q).
  { eapply Qle_lt_trans; [exact H1 |].
    eapply Qle_lt_trans; [exact Hxy | exact H2]. }
  apply Qpower_lt_compat_l_inv in H; [lia | reflexivity].
Qed.

Lemma rne_bounds (q : Q) : (Qfloor q <= rne q <= Qfloor q + 1)%Z.
Proof.
  unfold rne. destruct (Qcompare _ _); [destruct (Z.even _) | |]; lia.
Qed.

Lemma rne_ge (q : Q) (k : Z) : (inject_Z k <= q)%Q -> (k <= rne q)%Z.
Proof.
  intros H. apply Qfloor_resp_le in H. rewrite Qfloor_Z in H.
  pose proof (rne_bounds q). lia.
Qed.

Lemma rne_le (q : Q) (k : Z) : (q <= inject_Z k)%Q -> (rne q <= k)%Z.
Proof.
  intros H. pose proof (Qfloor_resp_le _ _ H) as Hf. rewrite Qfloor_Z in Hf.
  pose proof (rne_bounds q) as Hb.
  destruct (Z.eq_dec (Qfloor q) k) as [E | E]; [| lia].
  unfold rne. rewrite E.
  destruct (Qcompare_spec (q - inject_Z k) (1 # 2)) as [H1 | H1 | H1];
    try lia; lra.
Qed.

Lemma rne_mono (q q' : Q) : (q <= q')%Q -> (rne q <= rne q')%Z.
Proof.
  intros H. pose proof (Qfloor_resp_le _ _ H) as Hf.
  pose proof (rne_bounds q) as Hb. pose proof (rne_bounds q') as Hb'.
  destruct (Z.eq_dec (Qfloor q) (Qfloor q')) as [E | E]; [| lia].
  unfold rne in *. rewrite <- E in *.
  destruct (Qcompare_spec (q - inject_Z (Qfloor q)) (1 # 2)) as [H1 | H1 | H1];
    destruct (Qcompare_spec (q' - inject_Z (Qfloor q)) (1 # 2))
      as [H2 | H2 | H2];
    try lia; try lra; destruct (Z.even (Qfloor q)); lia.
Qed.

Lemma round_pos_mono (x y : Q) :
  (0 < x)%Q -> (x <= y)%Q -> (round_pos x <= round_pos y)%Q.
Proof.
  intros Hx Hxy. pose proof (Qlt_le_trans _ _ _ Hx Hxy) as Hy.
  pose proof (ilog2_mono x y Hx Hxy) as He.
  unfold round_pos.
  set (ex := Z.max (ilog2 x) (-1022)). set (ey := Z.max (ilog2 y) (-1022)).
  destruct (Z.eq_dec ex ey) as [E | E].
  - rewrite E. apply Qmult_le_compat_r; [| apply Qlt_le_weak, two_pos].
    rewrite <- Zle_Qle. apply rne_mono.
    apply Qmult_le_compat_r; [exact Hxy | apply Qlt_le_weak, two_pos].
  - assert (Hlt : (ex < ey)%Z) by (unfold ex, ey in *; lia).
    assert (Ey : ey = ilog2 y) by (unfold ex, ey in *; lia).
    destruct (ilog2_spec x Hx) as [_ Hxu].
    destruct (ilog2_spec y Hy) as [Hyl _]. rewrite <- Ey in Hyl.
    assert (E1 : (2 ^ (ex + 1) == inject_Z (2 ^ 53) * 2 ^ (ex - 52))%Q).
    { rewrite (two_inject 53) by lia. rewrite <- two_add.
      replace (53 + (ex - 52))%Z with (ex + 1)%Z by lia. reflexivity. }
    assert (E2 : (inject_Z (2 ^ 53) == 2 ^ (ex + 1) * 2 ^ (52 - ex))%Q).
    { rewrite (two_inject 53) by lia. rewrite <- two_add.
      replace (ex + 1 + (52 - ex))%Z with 53%Z by lia. reflexivity. }
    assert (E3 : (2 ^ ey == inject_Z (2 ^ 52) * 2 ^ (ey - 52))%Q).
    { rewrite (two_inject 52) by lia. rewrite <- two_add.
      replace (52 + (ey - 52))%Z with ey by lia. reflexivity. }
    assert (E4 : (inject_Z (2 ^ 52) == 2 ^ ey * 2 ^ (52 - ey))%Q).
    { rewrite (two_inject 52) by lia. rewrite <- two_add.
      replace (ey + (52 - ey))%Z with 52%Z by lia. reflexivity. }
    apply Qle_trans with (2 ^ (ex + 1))%Q.
    + rewrite E1. apply Qmult_le_compat_r; [| apply Qlt_le_weak, two_pos].
      rewrite <- Zle_Qle. apply rne_le. rewrite E2.
      apply Qmult_le_compat_r; [| apply Qlt_le_weak, two_pos].
      apply Qlt_le_weak. eapply Qlt_le_trans; [exact Hxu |].
      apply two_mono. unfold ex. lia.
    + apply Qle_trans with (2 ^ ey)%Q; [apply two_mono; lia |].
      rewrite E3. apply Qmult_le_compat_r; [| apply Qlt_le_weak, two_pos].
      rewrite <- Zle_Qle. apply rne_ge. rewrite E4.
      apply Qmult_le_compat_r; [exact Hyl | apply Qlt_le_weak, two_pos].
Qed.

Lemma round_pos_nonneg (x : Q) : (0 < x)%Q -> (0 <= round_pos x)%Q.
Proof.
  intros Hx. unfold round_pos.
  apply Qmult_le_0_compat; [| apply Qlt_le_weak, two_pos].
  change 0%Q with (inject_Z 0). rewrite <- Zle_Qle. apply rne_ge.
  apply Qmult_le_0_compat; [now apply Qlt_le_weak | apply Qlt_le_weak, two_pos].
Qed.

(** Rounding to binary64 is monotone. *)
Lemma round64_mono (x y : Q) : (x <= y)%Q -> (round64 x <= round64 y)%Q.
Proof.
  intros H. unfold round64.
  destruct (Qcompare_spec 0 x) as [Hx | Hx | Hx];
    destruct (Qcompare_spec 0 y) as [Hy | Hy | Hy]; try lra.
  - now apply round_pos_nonneg.
  - now apply round_pos_mono.
  - pose proof (round_pos_nonneg (- x)). lra.
  - pose proof (round_pos_nonneg (- x)).
    pose proof (round_pos_nonneg y). lra.
  - pose proof (round_pos_mono (- y) (- x)). lra.
Qed.

Lemma round64_proper (x y : Q) : (x == y)%Q -> (round64 x == round64 y)%Q.
Proof.
  intros E. apply Qle_antisym; apply round64_mono; rewrite E; apply Qle_refl.
Qed.

Lemma num_nonneg (q : Q) : (0 <= q)%Q -> (0 <= num q)%Q.
Proof. intros H. exact (round64_mono 0 q H). Qed.

(** The noise term is monotone in the draw. *)
Lemma noise_mono (r r' range : Q) :
  (0 <= range)%Q -> (r <= r')%Q ->
  (sub64 (mul64 (mul64 r range) (num 2)) range
   <= sub64 (mul64 (mul64 r' range) (num 2)) range)%Q.
Proof.
  intros Hn Hr. unfold sub64, mul64. apply round64_mono.
  apply Qplus_le_compat; [| apply Qle_refl].
  apply round64_mono. apply Qmult_le_compat_r.
  - apply round64_mono. now apply Qmult_le_compat_r.
  - apply num_nonneg. discriminate.
Qed.

(** A sum of the baseline and a noise term between [- range] and [range]
    lies between the two ends of the band as the page evaluates them. *)
Lemma band64 (base q r : Q) :
  (0 <= r)%Q -> (r < 1)%Q -> (0 <= q)%Q ->
  (sub64 (mul64 (mul64 0 (num q)) (num 2)) (num q) == - num q)%Q ->
  (sub64 (mul64 (mul64 1 (num q)) (num 2)) (num q) == num q)%Q ->
  (sub64 base (num q)
   <= add64 base (sub64 (mul64 (mul64 r (num q)) (num 2)) (num q)))%Q
  /\ (add64 base (sub64 (mul64 (mul64 r (num q)) (num 2)) (num q))
      <= add64 base (num q))%Q.
Proof.
  intros H0 H1 Hq Elo Ehi.
  pose proof (noise_mono 0 r (num q) (num_nonneg q Hq) H0) as Hlo.
  pose proof (noise_mono r 1 (num q) (num_nonneg q Hq) (Qlt_le_weak _ _ H1))
    as Hhi.
  rewrite Elo in Hlo. rewrite Ehi in Hhi.
  unfold add64 at 1 2 3, sub64 at 1. split; apply round64_mono; lra.
Qed.

Lemma noise_ends (q : Q) :
  Qeq_bool (sub64 (mul64 (mul64 0 (num q)) (num 2)) (num q)) (- num q)
  && Qeq_bool (sub64 (mul64 (mul64 1 (num q)) (num 2)) (num q)) (num q)
  = true ->
  (sub64 (mul64 (mul64 0 (num q)) (num 2)) (num q) == - num q)%Q
  /\ (sub64 (mul64 (mul64 1 (num q)) (num 2)) (num q) == num q)%Q.
Proof.
  intros H. apply andb_prop in H. destruct H as [H1 H2].
  split; now apply Qeq_bool_iff.
Qed.

(** [round64] against the kernel's binary64 floats, at the literals and
    sums of the generator, at a tie, near 2^53 and among the subnormals. *)
Module Binary64.
Import PrimFloat.
Set Warnings "-inexact-float".

Lemma literals_agree :
  is_float 0.3%float (num 0.3) && is_float 1%float (num 1)
  && is_float 5%float (num 5) && is_float 2%float (num 2)
  && is_float 0.7%float (num 0.7) = true.
Proof. vm_compute. reflexivity. Qed.

Lemma generator_sums_agree :
  is_float (25 + (0 * 0.3 * 2 - 0.3))%float
    (add64 25 (sub64 (mul64 (mul64 0 (num 0.3)) (num 2)) (num 0.3)))
  && is_float (25 + (0.7 * 0.3 * 2 - 0.3))%float
       (add64 25
          (sub64 (mul64 (mul64 (num 0.7) (num 0.3)) (num 2)) (num 0.3)))
  && is_float (2251799813685248.5 + (0.7 * 1 * 2 - 1))%float
       (add64 (num 2251799813685248.5)
          (sub64 (mul64 (mul64 (num 0.7) (num 1)) (num 2)) (num 1)))
  && is_float (-300 + (0x1.fffffffffffffp-1 * 5 * 2 - 5))%float
       (add64 (-300)
          (sub64 (mul64 (mul64 (1 - 2 ^ (-53)) (num 5)) (num 2)) (num 5)))
  = true.
Proof. vm_compute. reflexivity. Qed.

Lemma rounding_agrees :
  is_float (9007199254740992 + 1)%float (add64 9007199254740992 1)
  && is_float (9007199254740992 + 3)%float (add64 9007199254740992 3)
  && is_float (1 / 3)%float (round64 (1 # 3))
  && is_float (0x1p-1074 * 0.5)%float (mul64 (2 ^ (-1074)) (1 # 2))
  && is_float (0x3p-1074 * 0.5)%float (mul64 (3 * 2 ^ (-1074)) (1 # 2))
  && is_float (0x1p-1022 / 3)%float (round64 (2 ^ (-1022) * (1 # 3)))
  = true.
Proof. vm_compute. reflexivity. Qed.

End Binary64.

Set Implicit Arguments.

(** ** The demo feed generator *)

Section Generator.
Context {host : Host}.

Lemma noise_run (range : Q) (w : World) :
  noise range w =
  (sub64 (mul64 (mul64 (dice w (dice_reads w)) range) (num 2)) range,
   mkWorld (clock w) (clock_reads w) (dice w) (S (dice_reads w))).
Proof. reflexivity. Qed.

(** The row [generateDemoData] returns, and the world it leaves. *)
Lemma generateDemoData_run (base : Setpoint.t) (last : option SensorRow.t)
  (w : World) :
  generateDemoData base last w =
  (SensorRow.mk
     (or_zero (option_map SensorRow.id last) + 1)%Z
     (Date_toISOString (clock w (clock_reads w)))
     (Some (add64 (Setpoint.suhu base)
              (sub64 (mul64 (mul64 (dice w (dice_reads w)) (num 0.3))
                        (num 2)) (num 0.3))))
     (Some (add64 (Setpoint.kelembapan base)
              (sub64 (mul64 (mul64 (dice w (S (dice_reads w))) (num 1))
                        (num 2)) (num 1))))
     (Some (add64 (Setpoint.cahaya base)
              (sub64 (mul64 (mul64 (dice w (S (S (dice_reads w)))) (num 5))
                        (num 2)) (num 5))))
     (Some (add64 (Setpoint.suara base)
              (sub64 (mul64 (mul64 (dice w (S (S (S (dice_reads w)))))
                               (num 2)) (num 2)) (num 2))))
     (Some (toWIB (Date_toISOString (clock w (S (clock_reads w)))))),
   mkWorld (clock w) (S (S (clock_reads w))) (dice w)
     (S (S (S (S (dice_reads w)))))).
Proof. reflexivity. Qed.



Lemma generateDemoData_fair (base : Setpoint.t) (last : option SensorRow.t)
  (w : World) :
  fair w -> fair (snd (generateDemoData base last w)).
Proof. intros H n. rewrite generateDemoData_run. apply H. Qed.

(** The four measurements lie in the band of their baseline as the page's
    arithmetic evaluates its two ends. *)
Lemma generateDemoData_band (base : Setpoint.t) (last : option SensorRow.t)
  (w : World) :
  fair w ->
  within64 0.3 (Setpoint.suhu base)
    (SensorRow.suhu (fst (generateDemoData base last w)))
  /\ within64 1 (Setpoint.kelembapan base)
       (SensorRow.kelembapan (fst (generateDemoData base last w)))
  /\ within64 5 (Setpoint.cahaya base)
       (SensorRow.cahaya (fst (generateDemoData base last w)))
  /\ within64 2 (Setpoint.suara base)
       (SensorRow.suara (fst (generateDemoData base last w))).
Proof.
  intros Hfair. rewrite generateDemoData_run. cbn [fst].
  pose proof (Hfair (dice_reads w)) as [H1 H1'].
  pose proof (Hfair (S (dice_reads w))) as [H2 H2'].
  pose proof (Hfair (S (S (dice_reads w)))) as [H3 H3'].
  pose proof (Hfair (S (S (S (dice_reads w))))) as [H4 H4'].
  assert (E1 := noise_ends 0.3 ltac:(vm_compute; reflexivity)).
  assert (E2 := noise_ends 1 ltac:(vm_compute; reflexivity)).
  assert (E3 := noise_ends 5 ltac:(vm_compute; reflexivity)).
  assert (E4 := noise_ends 2 ltac:(vm_compute; reflexivity)).
  repeat split; eexists; (split; [reflexivity |]);
    cbn [SensorRow.suhu SensorRow.kelembapan SensorRow.cahaya
         SensorRow.suara].
  - apply band64; try assumption; try discriminate; tauto.
  - apply band64; try assumption; try discriminate; tauto.
  - apply band64; try assumption; try discriminate; tauto.
  - apply band64; try assumption; try discriminate; tauto.
Qed.


End Generator.

(** ** The synthetic feed *)

Section SyntheticFeed.
Context {host : Host}.

Lemma tick_run (base : Setpoint.t) (prev : list SensorRow.t) (w : World) :
  tick base prev w =
  ((if 500 <=? length prev
    then slice prev (Z.of_nat (length prev) - 499)
    else prev) ++ [fst (generateDemoData base (last_row prev) w)],
   snd (generateDemoData base (last_row prev) w)).
Proof.
  unfold tick, bind, ret.
  destruct (generateDemoData base (last_row prev) w); reflexivity.
Qed.

(** One tick keeps the last 500 of the buffer extended by the new sample. *)
Lemma tick_window (base : Setpoint.t) (prev : list SensorRow.t) (w : World) :
  fst (tick base prev w) =
  lastn 500 (prev ++ [fst (generateDemoData base (last_row prev) w)]).
Proof.
  rewrite tick_run. cbn [fst].
  destruct (Nat.leb_spec 500 (length prev)) as [H | H].
  - change 499%Z with (Z.of_nat 499). rewrite slice_tail by lia.
    symmetry. apply lastn_snoc. lia.
  - symmetry. apply lastn_all. rewrite length_app. simpl. lia.
Qed.

Lemma tick_last (base : Setpoint.t) (prev : list SensorRow.t) (w : World) :
  last_row (fst (tick base prev w)) =
  Some (fst (generateDemoData base (last_row prev) w)).
Proof. rewrite tick_run. cbn [fst]. apply last_row_snoc. Qed.

Lemma tick_length (base : Setpoint.t) (prev : list SensorRow.t) (w : World) :
  length (fst (tick base prev w)) = Nat.min 500 (S (length prev)).
Proof.
  rewrite tick_window, lastn_length, length_app. cbn [length]. lia.
Qed.

Lemma ticks_cons (b : Setpoint.t) (bs : list Setpoint.t)
  (prev : list SensorRow.t) (w : World) :
  ticks (b :: bs) prev w =
  ticks bs (fst (tick b prev w)) (snd (tick b prev w)).
Proof.
  cbn [ticks]. unfold bind. destruct (tick b prev w); reflexivity.
Qed.






End SyntheticFeed.




(** ** Sorting *)

Section Sorting.
Variable A : Type.
Variable cmp : A -> A -> option Z.

Lemma insert_sorted_perm (x : A) (l : list A) :
  Permutation (x :: l) (insert_sorted cmp x l).
Proof.
  induction l as [| y l IH]; simpl.
  - apply Permutation_refl.
  - destruct (before cmp x y).
    + apply Permutation_refl.
    + eapply perm_trans; [apply perm_swap | apply perm_skip, IH].
Qed.

Lemma Array_sort_perm (l : list A) : Permutation l (Array_sort cmp l).
Proof.
  induction l as [| x l IH]; simpl.
  - apply perm_nil.
  - eapply perm_trans; [apply perm_skip, IH | apply insert_sorted_perm].
Qed.

Lemma Array_sort_length (l : list A) :
  length (Array_sort cmp l) = length l.
Proof. symmetry. apply Permutation_length, Array_sort_perm. Qed.

End Sorting.

Lemma StronglySorted_map {A} (R : A -> A -> Prop) (f : A -> A) (l : list A) :
  (forall a b, R a b -> R (f a) (f b)) ->
  StronglySorted R l -> StronglySorted R (map f l).
Proof.
  intros Hf. induction 1 as [| x l Hl IH Hx]; simpl; constructor.
  - exact IH.
  - rewrite Forall_map. eapply Forall_impl; [| exact Hx]. intros; now apply Hf.
Qed.

Section BulkLoad.
Context {host : Host}.

Lemma before_byTimestamp (a b : SensorRow.t) (x y : Z) :
  instant a = Some x -> instant b = Some y ->
  before byTimestamp a b = (x <=? y)%Z.
Proof.
  unfold before, byTimestamp, instant. intros -> ->. simpl.
  destruct (Z.leb_spec (x - y) 0), (Z.leb_spec x y); auto; lia.
Qed.

Lemma not_after_trans (a b c : SensorRow.t) :
  not_after a b -> not_after b c -> not_after a c.
Proof.
  unfold not_after.
  destruct (instant a), (instant b), (instant c); try tauto. lia.
Qed.

Lemma insert_sorted_dated (x : SensorRow.t) (l : list SensorRow.t) :
  dated (x :: l) -> Sorted not_after l ->
  Sorted not_after (insert_sorted byTimestamp x l).
Proof.
  intros Hd Hs. inversion Hd as [| ? ? Hx Hl]; subst. clear Hd.
  destruct (instant x) as [tx |] eqn:Ex; [clear Hx | congruence].
  induction Hs as [| y l Hs IH Hy]; simpl.
  - repeat constructor.
  - inversion Hl as [| ? ? Hy' Hl']; subst.
    destruct (instant y) as [ty |] eqn:Ey; [clear Hy' | congruence].
    rewrite (before_byTimestamp x y Ex Ey).
    destruct (Z.leb_spec tx ty) as [Hle | Hgt].
    + constructor; [now constructor |].
      constructor. unfold not_after. now rewrite Ex, Ey.
    + constructor; [now apply IH |].
      assert (Hyx : not_after y x)
        by (unfold not_after; rewrite Ex, Ey; lia).
      destruct l as [| z l]; simpl.
      * now constructor.
      * destruct (before byTimestamp x z); constructor; auto.
        now inversion Hy.
Qed.

Lemma Array_sort_dated (rows : list SensorRow.t) :
  dated rows -> StronglySorted not_after (Array_sort byTimestamp rows).
Proof.
  intros Hd. apply Sorted_StronglySorted.
  - intros a b c. apply not_after_trans.
  - induction rows as [| x rows IH]; simpl.
    + constructor.
    + inversion Hd; subst. apply insert_sorted_dated.
      * constructor; [assumption |].
        unfold dated. eapply Permutation_Forall; [| eassumption].
        apply Array_sort_perm.
      * now apply IH.
Qed.

Lemma instant_add_wib (r : SensorRow.t) : instant (add_wib r) = instant r.
Proof. reflexivity. Qed.

(** An ascending list whose instants are pairwise distinct is strictly
    ascending. *)
Lemma strictly_ascending (l : list SensorRow.t) :
  StronglySorted not_after l -> NoDup (map instant l) ->
  StronglySorted earlier l.
Proof.
  induction 1 as [| x l Hl IH Hx]; intros Hnd; constructor.
  - apply IH. now inversion Hnd.
  - inversion Hnd as [| ? ? Hnotin _]; subst.
    rewrite Forall_forall in *. intros y Hy.
    specialize (Hx y Hy). unfold not_after, earlier in *.
    destruct (instant x) as [tx |] eqn:Ex; [| contradiction].
    destruct (instant y) as [ty |] eqn:Ey; [| contradiction].
    assert (tx <> ty).
    { intros ->. apply Hnotin. rewrite <- Ey. now apply in_map. }
    lia.
Qed.

(** What a successful bulk load leaves in the buffer. *)
Lemma bulk_buffer (rows : list SensorRow.t) :
  let buffer := map add_wib (Array_sort byTimestamp rows) in
  Permutation buffer (map add_wib rows)
  /\ Forall (fun r => SensorRow.timestamp_wib r
                      = Some (toWIB (SensorRow.timestamp r))) buffer
  /\ length buffer = length rows
  /\ (dated rows -> StronglySorted not_after buffer)
  /\ (dated rows -> NoDup (map instant rows) -> StronglySorted earlier buffer).
Proof.
  intros buffer. subst buffer.
  assert (Hsorted : dated rows ->
                    StronglySorted not_after
                      (map add_wib (Array_sort byTimestamp rows))).
  { intros Hd. apply StronglySorted_map; [| now apply Array_sort_dated].
    intros a b. unfold not_after. now rewrite !instant_add_wib. }
  repeat split.
  - apply Permutation_map, Permutation_sym, Array_sort_perm.
  - rewrite Forall_map. apply Forall_forall. reflexivity.
  - now rewrite length_map, Array_sort_length.
  - exact Hsorted.
  - intros Hd Hnd. apply strictly_ascending; [now apply Hsorted |].
    rewrite map_map.
    eapply Permutation_NoDup; [| exact Hnd].
    apply Permutation_map, Array_sort_perm.
Qed.

End BulkLoad.

(** ** The page as a transition system *)

Ltac page_cases :=
  repeat match goal with
    | |- context [if ?b then _ else _] => destruct b
    | |- context [match ?x with _ => _ end] => destruct x
    end.

Lemma Some_inj {A} (a b : A) : Some a = Some b -> a = b.
Proof. now intros [=]. Qed.

(** Reads a field through the setters. *)
Ltac fields :=
  cbn [setData setLoadingData setSetpoint setSavingSetpoint
       setDemoBase setActiveMetric set_intervals set_channels set_selects
       set_setpoint_select set_upsert alert set_fresh set_cleanup
       data loadingData setpoint savingSetpoint demoBase activeMetric
       intervals channels selects setpoint_select upsert alerts fresh
       cleanup].

Ltac wf_fields :=
  repeat match goal with
    | |- Forall _ (_ :: _) => constructor; [cbn; lia |]
    | H : Forall _ ?l |- Forall _ ?l =>
        eapply Forall_impl; [| exact H]; cbn; intros; lia
    | |- forall h, Some _ = Some h -> _ => intros ? [= <-]; cbn; lia
    end.

Lemma find_fst_none {B} (i : nat) (l : list (nat * B)) :
  ~ In i (map fst l) -> find (fun e => fst e =? i) l = None.
Proof.
  induction l as [| [j b] l IH]; simpl; intros H; [reflexivity |].
  destruct (Nat.eqb_spec j i) as [-> | _]; [tauto |].
  apply IH. tauto.
Qed.

Lemma existsb_eqb_false (c : nat) (l : list nat) :
  ~ In c l -> existsb (Nat.eqb c) l = false.
Proof.
  induction l as [| d l IH]; simpl; intros H; [reflexivity |].
  destruct (Nat.eqb_spec c d) as [-> | _]; [tauto |].
  apply IH. tauto.
Qed.

Lemma filter_fst_notin {B} (i : nat) (l : list (nat * B)) :
  ~ In i (map fst (filter (fun e => negb (fst e =? i)) l)).
Proof.
  rewrite in_map_iff. intros [[j b] [E H]]. simpl in E. subst j.
  apply filter_In in H. destruct H as [_ H]. simpl in H.
  now rewrite Nat.eqb_refl in H.
Qed.

Lemma filter_notin (c : nat) (l : list nat) :
  ~ In c (filter (fun x => negb (x =? c)) l).
Proof.
  intros H. apply filter_In in H. destruct H as [_ H].
  now rewrite Nat.eqb_refl in H.
Qed.

Lemma Forall_filter {B} (P : B -> Prop) (f : B -> bool) (l : list B) :
  Forall P l -> Forall P (filter f l).
Proof.
  rewrite !Forall_forall. intros H x Hx. apply H.
  apply filter_In in Hx. tauto.
Qed.

Section Machine.
Context {host : Host} {build : Build}.

Lemma onInsert_cases (payload : SensorRow.t) (prev : list SensorRow.t) :
  let r := SensorRow.with_wib payload (toWIB (SensorRow.timestamp payload)) in
  (length prev < 1000 -> onInsert payload prev = prev ++ [r])
  /\ (1000 <= length prev -> onInsert payload prev = tl prev ++ [r]).
Proof.
  intros r. unfold onInsert. fold r. rewrite length_app. cbn [length].
  split; intros H.
  - replace (1000 <? length prev + 1) with false
      by (symmetry; apply Nat.ltb_ge; lia).
    reflexivity.
  - replace (1000 <? length prev + 1) with true
      by (symmetry; apply Nat.ltb_lt; lia).
    destruct prev as [| x prev]; [simpl in H; lia | reflexivity].
Qed.

Lemma onInsert_length (payload : SensorRow.t) (prev : list SensorRow.t) :
  length (onInsert payload prev)
  = if length prev <? 1000 then S (length prev) else length prev.
Proof.
  destruct (onInsert_cases payload prev) as [Hlt Hge].
  destruct (Nat.ltb_spec (length prev) 1000) as [H | H].
  - rewrite Hlt by assumption. rewrite length_app. cbn [length]. lia.
  - rewrite Hge by assumption. rewrite length_app. cbn [length].
    destruct prev; simpl in *; lia.
Qed.

(** The fields [wf] and [released] read. *)
Lemma wf_ext (p p' : Page) :
  data p' = data p -> selects p' = selects p ->
  intervals p' = intervals p -> channels p' = channels p ->
  fresh p' = fresh p -> cleanup p' = cleanup p ->
  wf p -> wf p'.
Proof.
  unfold wf. intros -> -> -> -> -> ->. tauto.
Qed.

Lemma released_ext (h : Handle) (p p' : Page) :
  intervals p' = intervals p -> channels p' = channels p ->
  fresh p' = fresh p ->
  released h p -> released h p'.
Proof.
  unfold released. intros -> -> ->. tauto.
Qed.

Lemma wf_cleanup (p : Page) : wf p -> wf (effect_cleanup p).
Proof.
  unfold wf, effect_cleanup.
  intros (Hd & Hs & Hi & Hc & Hh).
  destruct (cleanup p) as [[i | c] |] eqn:E; cbn; repeat split; auto;
    try (now apply Forall_filter);
    intros h E'; try rewrite E in E'; discriminate E'.
Qed.

Lemma wf_effect_run (p : Page) : wf p -> wf (effect_run p).
Proof.
  unfold wf, effect_run, fetchInitial_start.
  intros (Hd & Hs & Hi & Hc & Hh).
  destruct DEMO_MODE; cbn; repeat split; auto; wf_fields.
Qed.

Lemma wf_mount : wf (mount blank).
Proof.
  unfold wf, mount, effect_run, fetchInitial_start.
  destruct DEMO_MODE; cbn; repeat split; auto with arith; wf_fields.
Qed.

Lemma wf_step (e : Event) (p p' : Page) :
  wf p -> step e p = Some p' -> wf p'.
Proof.
  intros Hwf. destruct e; unfold step.
  - intros E; apply Some_inj in E; subst p'. now apply wf_effect_run, wf_cleanup.
  - intros E; apply Some_inj in E; subst p'. now apply wf_cleanup.
  - destruct (find _ (intervals p)) as [[i base] |]; [| discriminate].
    intros E; apply Some_inj in E; subst p'. destruct Hwf as (Hd & Hrest).
    split; [| exact Hrest]. fields. rewrite tick_length. lia.
  - destruct (find _ (selects p)) as [[i q] |] eqn:Ef; [| discriminate].
    destruct (honours q resp) eqn:Eh; [| discriminate].
    intros E; apply Some_inj in E; subst p'. destruct Hwf as (Hd & Hs & Hrest).
    apply find_some in Ef. destruct Ef as [Hin _].
    rewrite Forall_forall in Hs. pose proof (Hs _ Hin) as Hq. cbn in Hq.
    unfold honours in Eh. unfold fetchInitial_resume.
    destruct (Response.error resp), (Response.data resp) as [rows |];
      (split; [| split; [| exact Hrest]]); fields;
      try exact Hd;
      try (apply Forall_filter, Forall_forall; exact Hs).
    apply Nat.leb_le in Eh.
    rewrite length_map, Array_sort_length. lia.
  - destruct (existsb _ (channels p)); [| discriminate].
    intros E; apply Some_inj in E; subst p'. destruct Hwf as (Hd & Hrest).
    split; [| exact Hrest]. fields. rewrite onInsert_length.
    destruct (Nat.ltb_spec (length (data p)) 1000); lia.
  - destruct (setpoint_select p); [| discriminate].
    intros E; apply Some_inj in E; subst p'. revert Hwf. apply wf_ext;
      unfold sync_demoBase, load_resume; page_cases; reflexivity.
  - intros E; apply Some_inj in E; subst p'. revert Hwf. apply wf_ext;
      unfold sync_demoBase; page_cases; reflexivity.
  - destruct (savingSetpoint p); [discriminate |].
    intros E; apply Some_inj in E; subst p'. revert Hwf. apply wf_ext; reflexivity.
  - destruct (upsert p) as [[captured row] |]; [| discriminate].
    intros E; apply Some_inj in E; subst p'. revert Hwf. apply wf_ext;
      unfold handleSaveSetpoint_resume; page_cases; reflexivity.
  - intros E; apply Some_inj in E; subst p'. revert Hwf. apply wf_ext; reflexivity.
Qed.

Lemma reachable_wf (p : Page) : reachable p -> wf p.
Proof.
  induction 1 as [| e p p' _ IH Hstep].
  - apply wf_mount.
  - eapply wf_step; eassumption.
Qed.

Lemma existsb_eqb_true (c : nat) (l : list nat) :
  In c l -> existsb (Nat.eqb c) l = true.
Proof.
  intros H. apply existsb_exists. exists c. split; [exact H |].
  apply Nat.eqb_refl.
Qed.

Lemma notin_filter_fst {B} (i : nat) (f : nat * B -> bool)
  (l : list (nat * B)) :
  ~ In i (map fst l) -> ~ In i (map fst (filter f l)).
Proof.
  intros H Hin. apply H. rewrite in_map_iff in *.
  destruct Hin as [e [E He]]. exists e. split; [exact E |].
  apply filter_In in He. tauto.
Qed.

Lemma notin_filter (c : nat) (f : nat -> bool) (l : list nat) :
  ~ In c l -> ~ In c (filter f l).
Proof. intros H Hin. apply H. apply filter_In in Hin. tauto. Qed.

Lemma released_after_cleanup (h : Handle) (p : Page) :
  wf p -> cleanup p = Some h -> released h (effect_cleanup p).
Proof.
  intros (_ & _ & _ & _ & Hh) E. specialize (Hh h E).
  unfold effect_cleanup, clearInterval, removeChannel. rewrite E.
  destruct h as [i | c]; split; fields; auto.
  - apply filter_fst_notin.
  - apply filter_notin.
Qed.

Lemma released_cleanup (h : Handle) (p : Page) :
  released h p -> released h (effect_cleanup p).
Proof.
  intros [Hlt Hout].
  unfold effect_cleanup, clearInterval, removeChannel.
  destruct (cleanup p) as [[i | c] |]; [| | now split];
    split; fields; auto; destruct h; fields; auto.
  - now apply notin_filter_fst.
  - now apply notin_filter.
Qed.

Lemma released_effect_run (h : Handle) (p : Page) :
  released h p -> released h (effect_run p).
Proof.
  intros [Hlt Hout]. unfold released, effect_run, fetchInitial_start.
  destruct DEMO_MODE; fields; (split; [lia |]);
    destruct h as [i | c]; cbn [handle_id map fst] in *;
    try exact Hout; intros [E | E]; try (now apply Hout); lia.
Qed.

Lemma released_step (h : Handle) (e : Event) (p p' : Page) :
  released h p -> step e p = Some p' -> released h p'.
Proof.
  intros Hr. destruct e; unfold step.
  - intros E; apply Some_inj in E; subst p'.
    now apply released_effect_run, released_cleanup.
  - intros E; apply Some_inj in E; subst p'. now apply released_cleanup.
  - destruct (find _ (intervals p)) as [[i base] |]; [| discriminate].
    intros E; apply Some_inj in E; subst p'.
    revert Hr. apply released_ext; reflexivity.
  - destruct (find _ (selects p)) as [[i q] |]; [| discriminate].
    destruct (honours q resp); [| discriminate].
    intros E; apply Some_inj in E; subst p'.
    revert Hr. apply released_ext;
      unfold fetchInitial_resume; page_cases; reflexivity.
  - destruct (existsb _ (channels p)); [| discriminate].
    intros E; apply Some_inj in E; subst p'.
    revert Hr. apply released_ext; reflexivity.
  - destruct (setpoint_select p); [| discriminate].
    intros E; apply Some_inj in E; subst p'.
    revert Hr. apply released_ext;
      unfold sync_demoBase, load_resume; page_cases; reflexivity.
  - intros E; apply Some_inj in E; subst p'.
    revert Hr. apply released_ext;
      unfold sync_demoBase; page_cases; reflexivity.
  - destruct (savingSetpoint p); [discriminate |].
    intros E; apply Some_inj in E; subst p'.
    revert Hr. apply released_ext; reflexivity.
  - destruct (upsert p) as [[captured row] |]; [| discriminate].
    intros E; apply Some_inj in E; subst p'.
    revert Hr. apply released_ext;
      unfold handleSaveSetpoint_resume; page_cases; reflexivity.
  - intros E; apply Some_inj in E; subst p'.
    revert Hr. apply released_ext; reflexivity.
Qed.

Lemma released_run (h : Handle) (es : list Event) :
  forall p p', released h p -> run es p = Some p' -> released h p'.
Proof.
  induction es as [| e es IH]; intros p p' Hr; cbn [run].
  - intros E; apply Some_inj in E. now subst.
  - destruct (step e p) as [p1 |] eqn:E; [| discriminate].
    apply IH. eapply released_step; eassumption.
Qed.

(** The host has nothing left to invoke a released handle's callback
    with. *)
Lemma released_silent (h : Handle) (e : Event) (p : Page) :
  released h p -> fires h e = true -> step e p = None.
Proof.
  intros [_ Hout] Hf.
  destruct h as [i | c], e; try discriminate; cbn in Hf;
    apply Nat.eqb_eq in Hf; subst; unfold step.
  - now rewrite find_fst_none.
  - now rewrite existsb_eqb_false.
Qed.

(** The cleanup held by a reachable page is the one of its mode. *)
Lemma reachable_of_mode (p : Page) :
  reachable p -> forall h, cleanup p = Some h -> of_mode h.
Proof.
  assert (Hrun : forall q h, cleanup (effect_run q) = Some h -> of_mode h).
  { intros q h. unfold effect_run, of_mode.
    destruct DEMO_MODE; fields; intros E; apply Some_inj in E; subst h;
      eauto. }
  assert (Hclean : forall q h, cleanup (effect_cleanup q) = Some h ->
                               cleanup q = Some h).
  { intros q h. unfold effect_cleanup.
    destruct (cleanup q) as [[i | c] |] eqn:E; fields; congruence. }
  induction 1 as [| e p p' _ IH Hstep]; intros h.
  - unfold mount. destruct DEMO_MODE eqn:E; fields; intros Hc;
      apply (Hrun blank); exact Hc.
  - revert Hstep. destruct e; unfold step.
    + intros E; apply Some_inj in E; subst p'. apply Hrun.
    + intros E; apply Some_inj in E; subst p'. intros Hc. apply IH.
      now apply Hclean.
    + destruct (find _ (intervals p)) as [[i base] |]; [| discriminate].
      intros E; apply Some_inj in E; subst p'. apply IH.
    + destruct (find _ (selects p)) as [[i q] |]; [| discriminate].
      destruct (honours q resp); [| discriminate].
      intros E; apply Some_inj in E; subst p'.
      unfold fetchInitial_resume; page_cases; apply IH.
    + destruct (existsb _ (channels p)); [| discriminate].
      intros E; apply Some_inj in E; subst p'. apply IH.
    + destruct (setpoint_select p); [| discriminate].
      intros E; apply Some_inj in E; subst p'.
      unfold sync_demoBase, load_resume; page_cases; apply IH.
    + intros E; apply Some_inj in E; subst p'.
      unfold sync_demoBase; page_cases; apply IH.
    + destruct (savingSetpoint p); [discriminate |].
      intros E; apply Some_inj in E; subst p'. apply IH.
    + destruct (upsert p) as [[captured row] |]; [| discriminate].
      intros E; apply Some_inj in E; subst p'.
      unfold handleSaveSetpoint_resume; page_cases; apply IH.
    + intros E; apply Some_inj in E; subst p'. apply IH.
Qed.

End Machine.

(** ** The realtime feed *)

Section RealtimeFeed.
Context {host : Host} {build : Build}.

Lemma fetchInitial_resume_ok (rows : list SensorRow.t) (p : Page) :
  data (fetchInitial_resume (ok rows) p)
  = map add_wib (Array_sort byTimestamp rows).
Proof. reflexivity. Qed.

Lemma bulk_ids (rows : list SensorRow.t) (i : Z) :
  In i (map SensorRow.id (map add_wib (Array_sort byTimestamp rows))) ->
  In i (map SensorRow.id rows).
Proof.
  rewrite map_map. cbn [add_wib SensorRow.with_wib SensorRow.id].
  apply Permutation_in, Permutation_map, Permutation_sym, Array_sort_perm.
Qed.

(** C2. The realtime handler puts one reading after the readings the
    buffer holds, which keep their order: the pushed reading with the
    formatted form of its timestamp attached and its other fields as they
    came.  When that makes more than 1000 readings the first one, and only
    it, is dropped.  On every reachable page a pushed reading is delivered
    to a subscribed channel and the buffer holds at most 1000 readings
    afterwards. *)
Theorem C2_push_appends_and_evicts (prev : list SensorRow.t) (p : Page)
  (channel : nat) (payload : SensorRow.t) :
  let r :=
    SensorRow.mk (SensorRow.id payload) (SensorRow.timestamp payload)
      (SensorRow.suhu payload) (SensorRow.kelembapan payload)
      (SensorRow.cahaya payload) (SensorRow.suara payload)
      (Some (toWIB (SensorRow.timestamp payload))) in
  (length prev < 1000 -> onInsert payload prev = prev ++ [r])
  /\ (1000 <= length prev ->
      onInsert payload prev = tl prev ++ [r]
      /\ length (onInsert payload prev) = length prev)
  /\ (reachable p -> In channel (channels p) ->
      exists p',
        step (Inserted channel payload) p = Some p'
        /\ data p' = onInsert payload (data p)
        /\ last_row (data p') = Some r
        /\ length (data p') <= 1000).
Proof.
  intros r. destruct (onInsert_cases payload prev) as [Hlt Hge].
  split; [exact Hlt |]. split.
  - intros H. split; [now apply Hge |].
    rewrite onInsert_length.
    destruct (Nat.ltb_spec (length prev) 1000); [lia | reflexivity].
  - intros Hreach Hin. eexists. split; [| split; [| split]].
    + unfold step. rewrite (existsb_eqb_true _ _ Hin). reflexivity.
    + reflexivity.
    + fields. destruct (onInsert_cases payload (data p)) as [H1 H2].
      destruct (Nat.lt_ge_cases (length (data p)) 1000) as [H | H].
      * rewrite H1 by assumption. apply last_row_snoc.
      * rewrite H2 by assumption. apply last_row_snoc.
    + fields. rewrite onInsert_length.
      apply reachable_wf in Hreach. destruct Hreach as [Hd _].
      destruct (Nat.ltb_spec (length (data p)) 1000); lia.
Qed.

(** C3, as the code has it. The bulk load of the second revision asks for
    the 500 newest readings and the one of the first revision for the 300
    newest.  On success both replace the buffer by the fetched rows, each
    with its formatted timestamp, re-sorted: the buffer has as many rows as
    were fetched (500 for 500), it is ascending by timestamp when every
    timestamp parses, and strictly ascending when the timestamps are
    distinct as well. *)
Theorem C3_bulk_load_sorted (p : Page) (rows : list SensorRow.t) :
  requests_newest 500 fetchInitial_start
  /\ (DEMO_MODE = false ->
      selects (effect_run p) = selects (fetchInitial_start p))
  /\ requests_newest 300 Legacy.load_start
  /\ data (Legacy.load_resume (ok rows) p)
     = data (fetchInitial_resume (ok rows) p)
  /\ let buffer := data (fetchInitial_resume (ok rows) p) in
     Permutation buffer (map add_wib rows)
     /\ Forall (fun r => SensorRow.timestamp_wib r
                         = Some (toWIB (SensorRow.timestamp r))) buffer
     /\ length buffer = length rows
     /\ (dated rows -> StronglySorted not_after buffer)
     /\ (dated rows -> NoDup (map instant rows) ->
         StronglySorted earlier buffer).
Proof.
  split; [intros q; reflexivity |].
  split; [intros E; unfold effect_run; rewrite E; reflexivity |].
  split; [intros q; reflexivity |].
  split; [reflexivity |].
  rewrite fetchInitial_resume_ok. apply bulk_buffer.
Qed.

(** C8. A reading pushed while the bulk load is awaited goes to the end of
    whatever the buffer holds; when the bulk load then succeeds, the buffer
    is the one the bulk load alone would have left, so the pushed reading
    is gone unless the fetched rows hold it too. *)
Theorem C8_early_push_discarded (p : Page) (channel request : nat)
  (q : SelectQuery) (payload : SensorRow.t) (rows : list SensorRow.t) :
  In channel (channels p) ->
  find (fun e => fst e =? request) (selects p) = Some (request, q) ->
  length rows <= q_limit q ->
  exists pushed reloaded direct,
    step (Inserted channel payload) p = Some pushed
    /\ data pushed = onInsert payload (data p)
    /\ last_row (data pushed)
       = Some (SensorRow.with_wib payload
                 (toWIB (SensorRow.timestamp payload)))
    /\ step (Selected request (ok rows)) pushed = Some reloaded
    /\ step (Selected request (ok rows)) p = Some direct
    /\ data reloaded = data direct
    /\ (~ In (SensorRow.id payload) (map SensorRow.id rows) ->
        ~ In (SensorRow.id payload) (map SensorRow.id (data reloaded))).
Proof.
  intros Hin Hfind Hlen.
  assert (Hh : honours q (ok rows) = true)
    by (unfold honours; cbn; now apply Nat.leb_le).
  do 3 eexists. split; [| split; [| split; [| split; [| split; [| split]]]]].
  - unfold step. rewrite (existsb_eqb_true _ _ Hin). reflexivity.
  - reflexivity.
  - fields. destruct (onInsert_cases payload (data p)) as [H1 H2].
    destruct (Nat.lt_ge_cases (length (data p)) 1000) as [H | H].
    + rewrite H1 by assumption. apply last_row_snoc.
    + rewrite H2 by assumption. apply last_row_snoc.
  - unfold step. fields. rewrite Hfind, Hh. reflexivity.
  - unfold step. rewrite Hfind, Hh. reflexivity.
  - reflexivity.
  - intros Hout Hin'. apply Hout. rewrite fetchInitial_resume_ok in Hin'.
    now apply bulk_ids.
Qed.

(** C9. Once React has run the cleanup of the feed effect on a reachable
    page, because the page unmounts or because the effect runs again, the
    host never again has an event for the handle that cleanup released:
    no tick of that interval (demo mode) and no insertion on that channel
    (real mode) reaches the buffer, whatever happens afterwards. *)
Theorem C9_teardown_silences_feed (p p' : Page) (h : Handle)
  (teardown : Event) (es : list Event) (e : Event) :
  reachable p ->
  cleanup p = Some h ->
  teardown = Unmount \/ teardown = Rerun ->
  run (teardown :: es) p = Some p' ->
  fires h e = true ->
  of_mode h /\ step e p' = None.
Proof.
  intros Hreach Hc Ht Hrun Hf. split.
  - eapply reachable_of_mode; eassumption.
  - apply released_silent with (h := h); [| exact Hf].
    pose proof (released_after_cleanup (reachable_wf Hreach) Hc) as Hr.
    destruct Ht as [-> | ->]; cbn [run step] in Hrun.
    + eapply released_run; eassumption.
    + eapply released_run; [| exact Hrun].
      now apply released_effect_run.
Qed.

End RealtimeFeed.

Lemma run_reachable {host : Host} {build : Build} (es : list Event) :
  forall p p', reachable p -> run es p = Some p' -> reachable p'.
Proof.
  induction es as [| e es IH]; intros p p' Hr; cbn [run].
  - intros E. apply Some_inj in E. now subst.
  - destruct (step e p) as [p1 |] eqn:E; [| discriminate].
    apply IH. eapply reach_step; eassumption.
Qed.

Lemma reachable_loaded_page :
  reachable (host := sample_host) (build := shipped) loaded_page.
Proof.
  apply (@run_reachable sample_host shipped
           [Selected 0 (ok sample_rows);
            Inserted 1 (sample_row 7 "1700000007000" None)]
           shipped_page loaded_page (@reach_mount sample_host shipped)).
  vm_compute. reflexivity.
Defined.

(** C2 on a full buffer, whose oldest reading is evicted, and on the page
    that holds the three sample rows and one pushed reading. *)
Lemma C2_push_appends_and_evicts_witness :
  1000 <= length full_buffer
  /\ onInsert (host := sample_host) (sample_row 8 "1700000008000" None)
       full_buffer
     = repeat (sample_row 2 "1700000002000" None) 999
       ++ [SensorRow.mk 8 "1700000008000" None (Some 55%Q) None (Some 40%Q)
             (Some (toWIB (host := sample_host) "1700000008000"))]
  /\ reachable (host := sample_host) (build := shipped) loaded_page
  /\ In 1 (channels loaded_page)
  /\ length (data loaded_page) < 1000
  /\ exists p',
       step (host := sample_host) (build := shipped)
         (Inserted 1 (sample_row 8 "1700000008000" None)) loaded_page
       = Some p'
       /\ data p'
          = data loaded_page
            ++ [SensorRow.mk 8 "1700000008000" None (Some 55%Q) None
                  (Some 40%Q)
                  (Some (toWIB (host := sample_host) "1700000008000"))]
       /\ length (data p') <= 1000.
Proof.
  assert (F : 1000 <= length full_buffer)
    by (apply Nat.leb_le; vm_compute; reflexivity).
  assert (I : In 1 (channels loaded_page)) by (vm_compute; auto).
  assert (L : length (data loaded_page) < 1000)
    by (apply Nat.ltb_lt; vm_compute; reflexivity).
  pose proof (@C2_push_appends_and_evicts sample_host shipped full_buffer
                loaded_page 1 (sample_row 8 "1700000008000" None))
    as (_ & Hfull & Hpage).
  pose proof (@C2_push_appends_and_evicts sample_host shipped
                (data loaded_page) loaded_page 1
                (sample_row 8 "1700000008000" None))
    as (Hshort & _ & _).
  split; [exact F |]. split; [exact (proj1 (Hfull F)) |].
  split; [exact reachable_loaded_page |]. split; [exact I |].
  split; [exact L |].
  destruct (Hpage reachable_loaded_page I) as [p' (Hs & Hd & _ & Hl)].
  exists p'. split; [exact Hs |]. split; [| exact Hl].
  rewrite Hd. exact (Hshort L).
Defined.

(** C3 as stated fails on the first revision, whose bulk load does not ask
    for 500 rows. *)
Lemma C3_first_revision_asks_300 : ~ requests_newest 500 Legacy.load_start.
Proof. intros H. specialize (H blank). discriminate H. Qed.

(** C3 on three fetched rows. *)
Lemma C3_bulk_load_sorted_witness :
  dated (host := sample_host) sample_rows
  /\ NoDup (map (instant (host := sample_host)) sample_rows)
  /\ StronglySorted (earlier (host := sample_host))
       (data (fetchInitial_resume (host := sample_host) (ok sample_rows)
                blank)).
Proof.
  assert (D : dated (host := sample_host) sample_rows)
    by (repeat constructor; discriminate).
  assert (N : NoDup (map (instant (host := sample_host)) sample_rows)).
  { repeat constructor; simpl; intuition discriminate. }
  split; [exact D |]. split; [exact N |].
  exact (proj2 (proj2 (proj2 (proj2 (proj2 (proj2 (proj2 (proj2
           (@C3_bulk_load_sorted sample_host shipped blank sample_rows))))))))
           D N).
Defined.

(** C8 on the page as mounted by the shipped build. *)
Lemma C8_early_push_discarded_witness :
  exists reloaded,
    run (host := sample_host) (build := shipped)
      [Inserted 1 (sample_row 7 "1700000007000" None);
       Selected 0 (ok sample_rows)] shipped_page = Some reloaded
    /\ ~ In 7%Z (map SensorRow.id (data reloaded)).
Proof.
  destruct (@C8_early_push_discarded sample_host shipped shipped_page 1 0
              sensor_logs_query (sample_row 7 "1700000007000" None)
              sample_rows)
    as (pushed & reloaded & direct & H1 & _ & _ & H2 & _ & _ & H3).
  - simpl; auto.
  - reflexivity.
  - simpl; lia.
  - exists reloaded. split.
    + cbn [run]. rewrite H1, H2. reflexivity.
    + apply H3. simpl. intuition discriminate.
Defined.

(** C9 on the page as mounted by the shipped build, torn down by a re-run
    of the effect. *)
Lemma C9_teardown_silences_feed_witness :
  exists p',
    run (host := sample_host) (build := shipped) [Rerun; Save 0] shipped_page
    = Some p'
    /\ step (host := sample_host) (build := shipped)
         (Inserted 1 (sample_row 7 "1700000007000" None)) p' = None.
Proof.
  eexists. split; [vm_compute; reflexivity |].
  refine (proj2 (@C9_teardown_silences_feed sample_host shipped shipped_page
                   _ (Channel 1) Rerun [Save 0%Z]
                   (Inserted 1 (sample_row 7 "1700000007000" None))
                   (@reach_mount sample_host shipped : reachable shipped_page)
                   _ _ _ _)).
  - reflexivity.
  - right; reflexivity.
  - vm_compute; reflexivity.
  - reflexivity.
Defined.

(** ** The setpoint store *)

Section SetpointStore.
Context {host : Host} {build : Build}.

Lemma same_targets_refl (s : Setpoint.t) : same_targets s s = true.
Proof.
  unfold same_targets.
  rewrite !(proj2 (Qeq_bool_iff _ _) (Qeq_refl _)). reflexivity.
Qed.

Lemma sync_demoBase_same (p : Page) : sync_demoBase (setpoint p) p = p.
Proof.
  unfold sync_demoBase. rewrite same_targets_refl.
  now rewrite andb_false_r.
Qed.

Lemma load_resume_rejects (resp : Response.t SetpointRow.t) (p : Page) :
  Response.error resp <> None \/ Response.data resp = None ->
  load_resume resp p = p.
Proof.
  unfold load_resume. intros [H | H].
  - destruct (Response.error resp); [reflexivity | congruence].
  - rewrite H. now destruct (Response.error resp).
Qed.

Lemma setpoint_mount : setpoint (mount blank) = Setpoint.mk 25 60 300 50.
Proof.
  unfold mount, effect_run, fetchInitial_start.
  destruct DEMO_MODE; reflexivity.
Qed.

Lemma alerts_mount : alerts (mount blank) = [].
Proof.
  unfold mount, effect_run, fetchInitial_start.
  destruct DEMO_MODE; reflexivity.
Qed.

Lemma setpoint_select_mount : setpoint_select (mount blank) = true.
Proof.
  unfold mount, effect_run, fetchInitial_start.
  destruct DEMO_MODE; reflexivity.
Qed.

(** C4, as the code has it. A save never touches the four targets and ends
    with the saving flag false, whatever the upsert answers, in both
    revisions.  When the upsert failed, the second revision shows exactly
    one alert and the first revision shows none; when it succeeded neither
    shows one.  On the page of the second revision a click on the save
    button raises the flag and every answer is handled. *)
Theorem C4_save_setpoint (now : Z) (captured : Setpoint.t)
  (resp : Response.t unit) (p : Page) :
  (one_alert_on_failure (handleSaveSetpoint_resume captured)
   /\ (Response.error resp <> None ->
       alerts (handleSaveSetpoint_resume captured resp p)
       = alerts p ++ ["Gagal menyimpan setpoint!"%string])
   /\ (Response.error resp = None ->
       alerts (handleSaveSetpoint_resume captured resp p) = alerts p)
   /\ alerts (Legacy.handleSaveSetpoint_resume resp p) = alerts p)
  /\ (setpoint (handleSaveSetpoint_start now p) = setpoint p
      /\ setpoint (handleSaveSetpoint_resume captured resp p) = setpoint p
      /\ setpoint (Legacy.handleSaveSetpoint_start now p) = setpoint p
      /\ setpoint (Legacy.handleSaveSetpoint_resume resp p) = setpoint p)
  /\ (savingSetpoint (handleSaveSetpoint_start now p) = true
      /\ savingSetpoint (handleSaveSetpoint_resume captured resp p) = false
      /\ savingSetpoint (Legacy.handleSaveSetpoint_start now p) = true
      /\ savingSetpoint (Legacy.handleSaveSetpoint_resume resp p) = false)
  /\ (savingSetpoint p = false ->
      exists saving settled,
        step (Save now) p = Some saving
        /\ savingSetpoint saving = true
        /\ step (Upserted resp) saving = Some settled
        /\ savingSetpoint settled = false
        /\ setpoint settled = setpoint p).
Proof.
  assert (Hfail : forall r q, Response.error r <> None ->
            alerts (handleSaveSetpoint_resume captured r q)
            = alerts q ++ ["Gagal menyimpan setpoint!"%string]).
  { intros r q H. unfold handleSaveSetpoint_resume.
    destruct (Response.error r); [reflexivity | congruence]. }
  split; [| split; [| split]].
  - split; [| split; [| split]].
    + intros r q H. rewrite Hfail by assumption.
      rewrite length_app. cbn [length]. lia.
    + apply Hfail.
    + intros H. unfold handleSaveSetpoint_resume. rewrite H.
      destruct DEMO_MODE; reflexivity.
    + reflexivity.
  - repeat split; try reflexivity.
    unfold handleSaveSetpoint_resume; page_cases; reflexivity.
  - repeat split; reflexivity.
  - intros Hs. do 2 eexists. unfold step. rewrite Hs.
    split; [reflexivity |]. split; [reflexivity |].
    split; [reflexivity |]. split; [reflexivity |].
    unfold handleSaveSetpoint_resume; page_cases; reflexivity.
Qed.

(** C5. When the setpoint query fails or finds no record, the load leaves
    the page as it is: the targets of the page as mounted stay 25, 60, 300
    and 50 and no alert is shown.  The first revision does the same when
    the answer carries no record. *)
Theorem C5_load_keeps_defaults (resp : Response.t SetpointRow.t) (p : Page) :
  Response.error resp <> None \/ Response.data resp = None ->
  load_resume resp p = p
  /\ (exists p',
        step (SetpointSelected resp) (mount blank) = Some p'
        /\ setpoint p' = Setpoint.mk 25 60 300 50
        /\ alerts p' = [])
  /\ (Response.data resp = None ->
      Legacy.loadSetpoint_resume resp p = p).
Proof.
  intros H. split; [now apply load_resume_rejects |]. split.
  - eexists. unfold step. rewrite setpoint_select_mount.
    split; [reflexivity |].
    rewrite load_resume_rejects by exact H.
    change (setpoint (mount blank))
      with (setpoint (set_setpoint_select false (mount blank))).
    rewrite sync_demoBase_same. fields.
    split; [apply setpoint_mount | apply alerts_mount].
  - intros E. unfold Legacy.loadSetpoint_resume. now rewrite E.
Qed.

(** C10. When the setpoint query answers a record without error, each of
    the four targets becomes the record's value for it, or its own default
    (25, 60, 300, 50) when the record holds none for it, independently of
    the other three; the same holds in the first revision. *)
Theorem C10_field_fallback (resp : Response.t SetpointRow.t)
  (d : SetpointRow.t) (p : Page) :
  Response.error resp = None ->
  Response.data resp = Some d ->
  let s := setpoint (load_resume resp p) in
  let s1 := setpoint (Legacy.loadSetpoint_resume resp p) in
  (stored_or 25 (SetpointRow.suhu_target d) (Setpoint.suhu s)
   /\ stored_or 60 (SetpointRow.kelembapan_target d) (Setpoint.kelembapan s)
   /\ stored_or 300 (SetpointRow.cahaya_target d) (Setpoint.cahaya s)
   /\ stored_or 50 (SetpointRow.suara_target d) (Setpoint.suara s))
  /\ (stored_or 25 (SetpointRow.suhu_target d) (Setpoint.suhu s1)
      /\ stored_or 60 (SetpointRow.kelembapan_target d) (Setpoint.kelembapan s1)
      /\ stored_or 300 (SetpointRow.cahaya_target d) (Setpoint.cahaya s1)
      /\ stored_or 50 (SetpointRow.suara_target d) (Setpoint.suara s1)).
Proof.
  intros He Hd s s1. subst s s1.
  unfold load_resume, Legacy.loadSetpoint_resume. rewrite He, Hd.
  destruct d as [i a b c e]. unfold stored_or.
  destruct DEMO_MODE, a, b, c, e; repeat split; reflexivity.
Qed.

End SetpointStore.

(** C4 as stated fails on the first revision, which shows no alert when
    the upsert failed. *)
Lemma C4_first_revision_shows_no_alert :
  ~ one_alert_on_failure Legacy.handleSaveSetpoint_resume.
Proof.
  intros H. specialize (H (failed "unreachable") blank).
  cbn in H. assert (E : 0 = 1) by (apply H; discriminate). discriminate E.
Qed.

(** C4 on a failed upsert after a click on the mounted page. *)
Lemma C4_save_setpoint_witness :
  Response.error (failed (A := unit) "unreachable") <> None
  /\ savingSetpoint shipped_page = false
  /\ alerts (handleSaveSetpoint_resume (build := shipped) initial_setpoint
               (failed "unreachable") shipped_page)
     = ["Gagal menyimpan setpoint!"%string].
Proof.
  assert (F : Response.error (failed (A := unit) "unreachable") <> None)
    by discriminate.
  split; [exact F |]. split; [reflexivity |].
  exact (proj1 (proj2 (proj1
           (@C4_save_setpoint sample_host shipped 0%Z initial_setpoint
              (failed "unreachable") shipped_page))) F).
Defined.

(** C5 on a failed query. *)
Lemma C5_load_keeps_defaults_witness :
  (Response.error (failed (A := SetpointRow.t) "unreachable") <> None
   \/ Response.data (failed (A := SetpointRow.t) "unreachable") = None)
  /\ load_resume (build := shipped) (failed "unreachable") shipped_page
     = shipped_page.
Proof.
  assert (F : Response.error (failed (A := SetpointRow.t) "unreachable")
              <> None
              \/ Response.data (failed (A := SetpointRow.t) "unreachable")
                 = None)
    by (right; reflexivity).
  split; [exact F |].
  exact (proj1 (@C5_load_keeps_defaults sample_host shipped
                  (failed "unreachable")
                  shipped_page F)).
Defined.

(** C10 on a record without a humidity target. *)
Lemma C10_field_fallback_witness :
  Response.error (ok sample_setpoint_row) = None
  /\ Response.data (ok sample_setpoint_row) = Some sample_setpoint_row
  /\ Setpoint.kelembapan
       (setpoint (load_resume (build := shipped) (ok sample_setpoint_row)
                    shipped_page)) = 60%Q.
Proof.
  split; [reflexivity |]. split; [reflexivity |].
  exact (proj1 (proj2 (proj1
           (@C10_field_fallback shipped (ok sample_setpoint_row)
              sample_setpoint_row shipped_page eq_refl eq_refl)))).
Defined.

(** ** Absent measurements *)

Section View.
Context {host : Host}.

Lemma Legacy_latest (p : Page) : Legacy.latest p = latest p.
Proof.
  unfold Legacy.latest, latest, index, last_row.
  destruct (data p) as [| x l]; [reflexivity |].
  cbn [length].
  replace (Z.of_nat (S (length l)) - 1 <? 0)%Z with false
    by (symmetry; apply Z.ltb_ge; lia).
  replace (0 <? S (length l)) with true
    by (symmetry; apply Nat.ltb_lt; lia).
  f_equal. lia.
Qed.

Lemma bulk_measurements (rows : list SensorRow.t) :
  Permutation
    (map SensorRow.measurements (map add_wib (Array_sort byTimestamp rows)))
    (map SensorRow.measurements rows).
Proof.
  rewrite map_map.
  change (fun x => SensorRow.measurements (add_wib x))
    with SensorRow.measurements.
  apply Permutation_map, Permutation_sym, Array_sort_perm.
Qed.

(** C7. The measurements of the fetched rows, absent ones included, are
    the measurements of the buffer after a bulk load (in both revisions);
    a pushed reading enters the buffer with the measurements it came with
    and the other readings are the ones the buffer held; and the card of a
    metric shows "--" when there is no latest reading or when its value for
    the metric is absent, and [toFixed(1)] of the value otherwise. *)
Theorem C7_absent_measurements_kept (rows prev : list SensorRow.t)
  (payload : SensorRow.t) (p : Page) (k : MetricKey) :
  (Permutation
     (map SensorRow.measurements (data (fetchInitial_resume (ok rows) p)))
     (map SensorRow.measurements rows)
   /\ Permutation
        (map SensorRow.measurements (data (Legacy.load_resume (ok rows) p)))
        (map SensorRow.measurements rows))
  /\ (exists r,
        SensorRow.measurements r = SensorRow.measurements payload
        /\ (onInsert payload prev = prev ++ [r]
            \/ onInsert payload prev = tl prev ++ [r]))
  /\ (MetricCard None = "--"%string
      /\ (latest p = None -> card p k = "--"%string)
      /\ (forall r, latest p = Some r -> metric r k = None ->
                    card p k = "--"%string)
      /\ (forall r v, latest p = Some r -> metric r k = Some v ->
                      card p k = Number_toFixed v 1)
      /\ Legacy.card p k = card p k).
Proof.
  split; [| split].
  - split; apply bulk_measurements.
  - exists (SensorRow.with_wib payload (toWIB (SensorRow.timestamp payload))).
    split; [reflexivity |].
    destruct (onInsert_cases payload prev) as [H1 H2].
    destruct (Nat.lt_ge_cases (length prev) 1000); auto.
  - split; [reflexivity |]. unfold card, Legacy.card.
    rewrite Legacy_latest. repeat split.
    + now intros ->.
    + now intros r -> ->.
    + now intros r v -> ->.
Qed.

End View.

(** C7 on the buffer a bulk load of the sample rows leaves: the latest
    reading has no light measurement. *)
Lemma C7_absent_measurements_kept_witness :
  latest (fetchInitial_resume (host := sample_host) (ok sample_rows) blank)
  = Some (add_wib (host := sample_host)
            (sample_row 3 "1700000003000" (Some 26%Q)))
  /\ card (host := sample_host)
       (fetchInitial_resume (host := sample_host) (ok sample_rows) blank)
       K_cahaya = "--"%string.
Proof.
  assert (L : latest (fetchInitial_resume (host := sample_host)
                        (ok sample_rows) blank)
              = Some (add_wib (host := sample_host)
                        (sample_row 3 "1700000003000" (Some 26%Q))))
    by (vm_compute; reflexivity).
  split; [exact L |].
  exact (proj1 (proj2 (proj2 (proj2 (proj2
           (@C7_absent_measurements_kept sample_host [] [] 
              (sample_row 7 "1700000007000" None)
              (fetchInitial_resume (host := sample_host) (ok sample_rows)
                 blank) K_cahaya)))))
           _ L eq_refl).
Defined.

(** * Further properties of the page *)

(** ** Identifiers and effects of the synthetic feed *)



Section SyntheticFeedMore.
Context {host : Host}.



(** X3. Each tick reads the clock twice and draws four random numbers, and
    nothing else of the world changes: n ticks leave the clock 2n reads and
    the dice 4n draws further, so no draw is used twice. *)
Theorem X3_ticks_consume_world (bases : list Setpoint.t) :
  forall (prev : list SensorRow.t) (w : World),
    snd (ticks bases prev w)
    = mkWorld (clock w) (clock_reads w + 2 * length bases)
        (dice w) (dice_reads w + 4 * length bases).
Proof.
  induction bases as [| b bs IH]; intros prev w.
  - destruct w. cbn. f_equal; lia.
  - rewrite ticks_cons, IH, tick_run, generateDemoData_run.
    cbn [snd clock clock_reads dice dice_reads length]. f_equal; lia.
Qed.

End SyntheticFeedMore.

(** ** Invariants of the page *)

Ltac step_inv H :=
  unfold step in H;
  repeat match type of H with
    | context [match ?x with _ => _ end] => destruct x eqn:?
    end;
  try discriminate H; apply Some_inj in H; subst.

Ltac handlers :=
  unfold mount, effect_run, effect_cleanup, sync_demoBase, load_resume,
    handleSaveSetpoint_resume, handleSaveSetpoint_start,
    fetchInitial_resume, fetchInitial_start, clearInterval, removeChannel.

Section MachineMore.
Context {host : Host} {build : Build}.

(** The setpoint events leave the feed alone. *)
Lemma store_events_frame (e : Event) (p p' : Page) :
  step e p = Some p' ->
  match e with
  | SetpointSelected _ | Change _ _ | Save _ | Upserted _ | Select _ =>
      data p' = data p /\ loadingData p' = loadingData p
      /\ intervals p' = intervals p /\ channels p' = channels p
      /\ selects p' = selects p /\ fresh p' = fresh p
      /\ cleanup p' = cleanup p
  | _ => True
  end.
Proof.
  intros H. destruct e; try exact I; step_inv H; handlers;
    page_cases; fields; repeat split; reflexivity.
Qed.

(** The feed events leave the setpoint store alone. *)
Lemma feed_events_frame (e : Event) (p p' : Page) :
  step e p = Some p' ->
  match e with
  | Rerun | Unmount | Tick _ _ | Selected _ _ | Inserted _ _ =>
      setpoint p' = setpoint p /\ savingSetpoint p' = savingSetpoint p
      /\ demoBase p' = demoBase p /\ upsert p' = upsert p
      /\ alerts p' = alerts p
  | _ => True
  end.
Proof.
  intros H. destruct e; try exact I; step_inv H; handlers;
    page_cases; fields; repeat split; reflexivity.
Qed.

(** Loading the setpoint, moving a control and picking a card leave the
    save in flight alone. *)
Lemma edit_events_frame (e : Event) (p p' : Page) :
  step e p = Some p' ->
  match e with
  | SetpointSelected _ | Change _ _ | Select _ =>
      savingSetpoint p' = savingSetpoint p /\ upsert p' = upsert p
  | _ => True
  end.
Proof.
  intros H. destruct e; try exact I; step_inv H; handlers;
    page_cases; fields; split; reflexivity.
Qed.

Lemma demo_page_invariant (p : Page) :
  DEMO_MODE = true -> reachable p ->
  length (data p) <= 500 /\ channels p = [] /\ selects p = []
  /\ loadingData p = false.
Proof.
  intros Hd. induction 1 as [| e p p' _ IH Hstep].
  - handlers. rewrite Hd. fields. repeat split; try reflexivity. cbn. lia.
  - pose proof (store_events_frame _ _ Hstep) as F.
    destruct IH as (I1 & I2 & I3 & I4).
    destruct e; cbv beta iota in F;
      try (destruct F as (-> & -> & _ & -> & -> & _); now repeat split);
      clear F; step_inv Hstep.
    + handlers. rewrite Hd.
      destruct (cleanup p) as [[i | c] |]; fields; rewrite ?I2;
        repeat split; auto.
    + handlers.
      destruct (cleanup p) as [[i | c] |]; fields; rewrite ?I2;
        repeat split; auto.
    + fields. rewrite tick_length. repeat split; auto; lia.
    + match goal with
      | E : find _ (selects p) = Some _ |- _ => rewrite I3 in E; discriminate E
      end.
    + match goal with
      | E : existsb _ (channels p) = true |- _ =>
          rewrite I2 in E; discriminate E
      end.
Qed.

Lemma loading_awaits (p : Page) :
  reachable p -> loadingData p = true -> selects p <> [].
Proof.
  induction 1 as [| e p p' _ IH Hstep].
  - handlers. destruct DEMO_MODE; fields; intros H; discriminate.
  - pose proof (store_events_frame _ _ Hstep) as F.
    destruct e; cbv beta iota in F;
      try (destruct F as (_ & -> & _ & _ & -> & _); exact IH);
      clear F; step_inv Hstep.
    + handlers. destruct DEMO_MODE.
      * destruct (cleanup p) as [[i | c] |]; fields; intros H; discriminate.
      * destruct (cleanup p) as [[i | c] |]; fields; intros _ H;
          discriminate.
    + handlers. destruct (cleanup p) as [[i | c] |]; fields; exact IH.
    + exact IH.
    + handlers.
      destruct (Response.error resp), (Response.data resp); fields;
        intros H; discriminate.
    + exact IH.
Qed.

Lemma one_resource_ext (p p' : Page) :
  intervals p' = intervals p -> channels p' = channels p ->
  cleanup p' = cleanup p -> one_resource p -> one_resource p'.
Proof. unfold one_resource. intros -> -> ->. tauto. Qed.

Lemma cleanup_releases_all (p : Page) :
  one_resource p ->
  cleanup (effect_cleanup p) = None
  /\ intervals (effect_cleanup p) = []
  /\ channels (effect_cleanup p) = [].
Proof.
  unfold one_resource. handlers.
  destruct (cleanup p) as [[i | c] |] eqn:E; fields.
  - intros [Hc [base Hi]]. rewrite Hi. cbn. now rewrite Nat.eqb_refl.
  - intros [Hi Hc]. rewrite Hc. cbn. now rewrite Nat.eqb_refl.
  - intros [Hi Hc]. auto.
Qed.

Lemma run_holds_one (p : Page) :
  cleanup p = None -> intervals p = [] -> channels p = [] ->
  one_resource (effect_run p).
Proof.
  intros _ Hi Hc. unfold one_resource. handlers.
  destruct DEMO_MODE; fields; rewrite Hi, Hc; eauto.
Qed.

Lemma reachable_one_resource (p : Page) : reachable p -> one_resource p.
Proof.
  induction 1 as [| e p p' _ IH Hstep].
  - unfold mount.
    assert (H : one_resource (effect_run blank))
      by (apply run_holds_one; reflexivity).
    revert H. apply one_resource_ext; destruct DEMO_MODE; reflexivity.
  - pose proof (store_events_frame _ _ Hstep) as F.
    destruct e; cbv beta iota in F;
      try (destruct F as (_ & _ & Hi & Hc & _ & _ & Hk);
           revert IH; now apply one_resource_ext);
      clear F; step_inv Hstep.
    + destruct (cleanup_releases_all _ IH) as (H1 & H2 & H3).
      now apply run_holds_one.
    + destruct (cleanup_releases_all _ IH) as (H1 & H2 & H3).
      unfold one_resource. now rewrite H1.
    + revert IH. apply one_resource_ext; reflexivity.
    + revert IH. apply one_resource_ext; handlers; page_cases; reflexivity.
    + revert IH. apply one_resource_ext; reflexivity.
Qed.

Lemma reachable_selects_numbered (p : Page) :
  reachable p -> selects_numbered p.
Proof.
  unfold selects_numbered. induction 1 as [| e p p' _ IH Hstep].
  - handlers. destruct DEMO_MODE; fields;
      repeat (constructor; try (cbn; lia)).
  - pose proof (store_events_frame _ _ Hstep) as F.
    destruct e; cbv beta iota in F;
      try (destruct F as (_ & _ & _ & _ & -> & -> & _); exact IH);
      clear F; step_inv Hstep.
    + handlers.
      destruct DEMO_MODE, (cleanup p) as [[i | c] |]; fields; wf_fields.
    + handlers. destruct (cleanup p) as [[i | c] |]; fields; exact IH.
    + exact IH.
    + handlers. page_cases; fields; now apply Forall_filter.
    + exact IH.
Qed.

Lemma reachable_saving (p : Page) : reachable p -> saving_tracks_upsert p.
Proof.
  unfold saving_tracks_upsert. induction 1 as [| e p p' _ IH Hstep].
  - handlers. destruct DEMO_MODE; reflexivity.
  - pose proof (feed_events_frame _ _ Hstep) as F.
    pose proof (edit_events_frame _ _ Hstep) as G.
    destruct e; cbv beta iota in F, G;
      try (destruct F as (_ & -> & _ & -> & _); exact IH);
      try (destruct G as (-> & ->); exact IH);
      clear F G; step_inv Hstep.
    + handlers. fields. repeat split; reflexivity.
    + handlers. destruct (Response.error resp), DEMO_MODE; reflexivity.
Qed.

Lemma real_page_invariant (p : Page) :
  DEMO_MODE = false -> reachable p ->
  intervals p = [] /\ demoBase p = initial_setpoint
  /\ Forall wib_matches (data p).
Proof.
  intros Hd. induction 1 as [| e p p' _ IH Hstep].
  - handlers. rewrite Hd. fields. cbn. repeat split. constructor.
  - destruct IH as (I1 & I2 & I3). step_inv Hstep.
    + handlers. rewrite Hd.
      destruct (cleanup p) as [[i | c] |]; fields; rewrite ?I1;
        repeat split; auto.
    + handlers.
      destruct (cleanup p) as [[i | c] |]; fields; rewrite ?I1;
        repeat split; auto.
    + match goal with
      | E : find _ (intervals p) = Some _ |- _ => rewrite I1 in E; discriminate E
      end.
    + handlers.
      destruct (Response.error resp), (Response.data resp) as [rows |];
        fields; repeat split; auto.
      rewrite Forall_map. apply Forall_forall. reflexivity.
    + fields. repeat split; auto.
      destruct (onInsert_cases payload (data p)) as [H1 H2].
      destruct (Nat.lt_ge_cases (length (data p)) 1000) as [H | H].
      * rewrite H1 by assumption. apply Forall_app. split; [exact I3 |].
        repeat constructor.
      * rewrite H2 by assumption. apply Forall_app. split.
        -- destruct (data p); [constructor | now inversion I3].
        -- repeat constructor.
    + handlers. rewrite Hd. cbn [andb].
      page_cases; fields; repeat split; auto.
    + handlers. rewrite Hd. cbn [andb]. fields. repeat split; auto.
    + handlers. fields. repeat split; auto.
    + handlers. rewrite Hd. page_cases; fields; repeat split; auto.
    + fields. repeat split; auto.
Qed.

End MachineMore.

(** ** Orders on lists *)

Lemma insert_sorted_after {A} (cmp : A -> A -> option Z) (x : A)
  (l : list A) :
  (forall y, In y l -> before cmp x y = false) ->
  insert_sorted cmp x l = l ++ [x].
Proof.
  induction l as [| y l IH]; intros H; [reflexivity |].
  cbn [insert_sorted app]. rewrite (H y) by (left; reflexivity).
  f_equal. apply IH. intros z Hz. apply H. now right.
Qed.

Lemma StronglySorted_snoc_inv {A} (R : A -> A -> Prop) (l : list A) (z : A) :
  StronglySorted R (l ++ [z]) -> Forall (fun x => R x z) l.
Proof.
  induction l as [| x l IH]; cbn [app]; intros H; [constructor |].
  inversion H as [| ? ? Hs Hx]; subst. constructor.
  - rewrite Forall_app in Hx. destruct Hx as [_ Hz]. now inversion Hz.
  - now apply IH.
Qed.

Lemma StronglySorted_snoc {A} (R : A -> A -> Prop) (l : list A) (z : A) :
  StronglySorted R l -> Forall (fun x => R x z) l ->
  StronglySorted R (l ++ [z]).
Proof.
  induction 1 as [| x l Hs IH Hx]; cbn [app]; intros Hz.
  - repeat constructor.
  - inversion Hz; subst. constructor; [now apply IH |].
    apply Forall_app. split; [exact Hx | now repeat constructor].
Qed.

Lemma StronglySorted_tl {A} (R : A -> A -> Prop) (l : list A) :
  StronglySorted R l -> StronglySorted R (tl l).
Proof. destruct 1; [constructor | assumption]. Qed.

Lemma last_row_nil_iff {A} (l : list A) : last_row l = None -> l = [].
Proof.
  destruct l as [| x l] using rev_ind; [reflexivity |].
  now rewrite last_row_snoc.
Qed.

Section FeedMore.
Context {host : Host} {build : Build}.

Lemma Array_sort_newest_first (rows : list SensorRow.t) :
  newest_first rows -> Array_sort byTimestamp rows = rev rows.
Proof.
  unfold newest_first. induction 1 as [| x l Hs IH Hx]; [reflexivity |].
  cbn [Array_sort rev]. rewrite IH. apply insert_sorted_after.
  intros y Hy. apply in_rev in Hy. rewrite Forall_forall in Hx.
  specialize (Hx y Hy). unfold earlier in Hx.
  destruct (instant y) as [ty |] eqn:Ey; [| contradiction].
  destruct (instant x) as [tx |] eqn:Ex; [| contradiction].
  rewrite (before_byTimestamp x y Ex Ey). apply Z.leb_gt. exact Hx.
Qed.

(** X4. When the store answers newest first with distinct timestamps, the
    bulk load leaves exactly the answer reversed, each row with its
    formatted timestamp; the first revision does the same. *)
Theorem X4_bulk_load_reverses_answer (rows : list SensorRow.t) (p : Page) :
  newest_first rows ->
  data (fetchInitial_resume (ok rows) p) = map add_wib (rev rows)
  /\ data (Legacy.load_resume (ok rows) p) = map add_wib (rev rows).
Proof.
  intros H. pose proof (Array_sort_newest_first H) as E.
  split.
  - now rewrite fetchInitial_resume_ok, E.
  - change (data (Legacy.load_resume (ok rows) p))
      with (map add_wib (Array_sort byTimestamp rows)).
    now rewrite E.
Qed.

(** X14. After a bulk load of rows whose timestamps all parse, the latest
    reading, the one the four cards show, is a fetched row that no fetched
    row is stamped after. *)
Theorem X14_bulk_load_latest_is_newest (rows : list SensorRow.t) (p : Page) :
  dated rows -> rows <> [] ->
  exists newest,
    In newest rows
    /\ latest (fetchInitial_resume (ok rows) p) = Some (add_wib newest)
    /\ (forall x, In x rows -> not_after x newest)
    /\ (forall k, card (fetchInitial_resume (ok rows) p) k
                  = MetricCard (metric newest k)).
Proof.
  intros Hd Hne.
  pose proof (Array_sort_perm byTimestamp rows) as Hp.
  pose proof (Array_sort_dated Hd) as Hs.
  destruct (exists_last (l := Array_sort byTimestamp rows)) as (l & z & E).
  { intros E. apply Hne. apply Permutation_sym in Hp. rewrite E in Hp.
    now apply Permutation_nil. }
  assert (Hl : latest (fetchInitial_resume (ok rows) p) = Some (add_wib z)).
  { unfold latest. rewrite fetchInitial_resume_ok, E, map_app.
    apply last_row_snoc. }
  assert (Hz : In z rows).
  { eapply Permutation_in; [apply Permutation_sym, Hp |].
    rewrite E. apply in_or_app. right. now left. }
  exists z. split; [exact Hz |]. split; [exact Hl |]. split.
  - intros x Hx. apply (Permutation_in _ Hp) in Hx. rewrite E in Hx, Hs.
    apply in_app_or in Hx. destruct Hx as [Hx | [<- | []]].
    + apply StronglySorted_snoc_inv in Hs. rewrite Forall_forall in Hs.
      now apply Hs.
    + unfold dated in Hd. rewrite Forall_forall in Hd.
      specialize (Hd z Hz). unfold not_after.
      destruct (instant z); [lia | congruence].
  - intros k. unfold card. rewrite Hl. reflexivity.
Qed.

(** X17. A push whose timestamp is not before the latest reading's keeps
    an ascending buffer ascending, eviction included: the handler never
    re-sorts, it relies on in-order delivery. *)
Theorem X17_in_order_push_keeps_order (payload : SensorRow.t)
  (prev : list SensorRow.t) :
  StronglySorted not_after prev ->
  (forall l, last_row prev = Some l -> not_after l payload) ->
  StronglySorted not_after (onInsert payload prev).
Proof.
  intros Hs Hl.
  set (r := SensorRow.with_wib payload (toWIB (SensorRow.timestamp payload))).
  assert (Hall : Forall (fun x => not_after x r) prev).
  { destruct prev as [| y prev'] using rev_ind; [constructor |].
    clear IHprev'. specialize (Hl y (last_row_snoc _ _)).
    apply Forall_app. split.
    - apply StronglySorted_snoc_inv in Hs.
      eapply Forall_impl; [| exact Hs]. intros a Ha.
      eapply not_after_trans; [exact Ha | exact Hl].
    - repeat constructor. exact Hl. }
  destruct (onInsert_cases payload prev) as [H1 H2]. fold r in H1, H2.
  destruct (Nat.lt_ge_cases (length prev) 1000) as [H | H].
  - rewrite H1 by assumption. now apply StronglySorted_snoc.
  - rewrite H2 by assumption. apply StronglySorted_snoc.
    + now apply StronglySorted_tl.
    + destruct prev; [constructor | now inversion Hall].
Qed.

End FeedMore.

(** ** The view constants *)

(** X15. Every metric key has its entry in METRICS, so the lookup of the
    active metric's label, which the page reads without a null check,
    always finds one; and no key is listed twice. *)
Theorem X15_activeMeta_always_found (k : MetricKey) :
  (exists m, activeMeta k = Some m /\ Metric.key m = k /\ In m METRICS)
  /\ NoDup (map Metric.key METRICS).
Proof.
  split.
  - destruct k; eexists; (split; [reflexivity |]); split;
      try reflexivity; cbn; tauto.
  - cbn. repeat constructor; cbn; intuition discriminate.
Qed.

(** ** The page in either mode *)

Section PageMore.
Context {host : Host} {build : Build}.

Lemma fetchInitial_resume_rejects (resp : Response.t (list SensorRow.t))
  (p : Page) :
  Response.error resp <> None \/ Response.data resp = None ->
  data (fetchInitial_resume resp p) = data p
  /\ loadingData (fetchInitial_resume resp p) = false.
Proof.
  unfold fetchInitial_resume. intros [H | H].
  - destruct (Response.error resp); [split; reflexivity | congruence].
  - rewrite H. destruct (Response.error resp); split; reflexivity.
Qed.

Lemma cleanup_keeps_selects (p : Page) :
  selects (effect_cleanup p) = selects p
  /\ fresh (effect_cleanup p) = fresh p
  /\ data (effect_cleanup p) = data p
  /\ demoBase (effect_cleanup p) = demoBase p.
Proof.
  handlers. destruct (cleanup p) as [[i | c] |]; repeat split; reflexivity.
Qed.

Lemma rerun_registers_interval (p : Page) :
  DEMO_MODE = true ->
  find (fun e => fst e =? fresh p) (intervals (effect_run (effect_cleanup p)))
  = Some (fresh p, demoBase p)
  /\ data (effect_run (effect_cleanup p)) = data p.
Proof.
  intros Hd. handlers. rewrite Hd.
  destruct (cleanup p) as [[i | c] |]; fields; cbn [find fst];
    rewrite Nat.eqb_refl; split; reflexivity.
Qed.

(** X1. In demo mode the page never reads the remote readings: on every
    reachable page nothing is awaited and nothing is subscribed, so no
    bulk answer and no push can be delivered; the loading flag is down and
    the buffer holds at most 500 readings. *)
Theorem X1_demo_mode_is_self_contained (p : Page) :
  DEMO_MODE = true -> reachable p ->
  length (data p) <= 500
  /\ loadingData p = false
  /\ (forall request resp, step (Selected request resp) p = None)
  /\ (forall channel payload, step (Inserted channel payload) p = None).
Proof.
  intros Hd Hr.
  destruct (demo_page_invariant Hd Hr) as (H1 & H2 & H3 & H4).
  repeat split; auto; intros; unfold step.
  - now rewrite H3.
  - now rewrite H2.
Qed.

(** X5. The loading flag is never stuck: on every reachable page where it
    is up, a bulk load is still awaited, and whatever the store answers to
    it, rows, no data or a failure, the answer is taken and the flag is
    down afterwards. *)
Theorem X5_loading_flag_is_cleared (p : Page) :
  reachable p -> loadingData p = true ->
  exists request q,
    find (fun e => fst e =? request) (selects p) = Some (request, q)
    /\ forall resp, honours q resp = true ->
       exists p',
         step (Selected request resp) p = Some p'
         /\ loadingData p' = false.
Proof.
  intros Hr Hl. pose proof (loading_awaits Hr Hl) as Hs.
  destruct (selects p) as [| [request q] l] eqn:E; [congruence |].
  exists request, q. split.
  - cbn [find fst]. now rewrite Nat.eqb_refl.
  - intros resp Hh. eexists. unfold step. rewrite E.
    cbn [find fst]. rewrite Nat.eqb_refl, Hh.
    split; [reflexivity |]. unfold fetchInitial_resume.
    destruct (Response.error resp), (Response.data resp); reflexivity.
Qed.

(** X6. A reading pushed while the bulk load is awaited stays in the
    buffer when the bulk load then fails or answers without data: the
    failure leaves the buffer as the push left it and takes the loading
    flag down. *)
Theorem X6_push_survives_failed_bulk_load (p : Page)
  (channel request : nat) (q : SelectQuery) (payload : SensorRow.t)
  (resp : Response.t (list SensorRow.t)) :
  In channel (channels p) ->
  find (fun e => fst e =? request) (selects p) = Some (request, q) ->
  honours q resp = true ->
  Response.error resp <> None \/ Response.data resp = None ->
  exists pushed settled,
    step (Inserted channel payload) p = Some pushed
    /\ step (Selected request resp) pushed = Some settled
    /\ data settled = onInsert payload (data p)
    /\ loadingData settled = false.
Proof.
  intros Hin Hfind Hh Hfail. do 2 eexists.
  split; [| split].
  - unfold step. rewrite (existsb_eqb_true _ _ Hin). reflexivity.
  - unfold step. fields. rewrite Hfind, Hh. reflexivity.
  - destruct (fetchInitial_resume_rejects resp
                (set_selects
                   (filter (fun e => negb (fst e =? request)) (selects p))
                   (setData (onInsert payload) p)) Hfail)
      as [Hd Hl].
    split; [exact Hd | exact Hl].
Qed.

(** X7. The feed never leaks a resource: on every reachable page at most
    one interval or channel is live, and it is the one the pending cleanup
    will release; after an unmount none is. *)
Theorem X7_one_live_feed_resource (p : Page) :
  reachable p ->
  one_resource p
  /\ length (intervals p) + length (channels p) <= 1
  /\ intervals (effect_cleanup p) = []
  /\ channels (effect_cleanup p) = [].
Proof.
  intros Hr. pose proof (reachable_one_resource Hr) as H.
  destruct (cleanup_releases_all _ H) as (_ & H2 & H3).
  split; [exact H |]. split; [| split; assumption].
  unfold one_resource in H.
  destruct (cleanup p) as [[i | c] |].
  - destruct H as [-> [base ->]]. cbn. lia.
  - destruct H as [-> ->]. cbn. lia.
  - destruct H as [-> ->]. cbn. lia.
Qed.

(** X8. Running the feed effect again does not cancel the bulk load.  A
    select that is awaited when the effect is cleaned up and run again is
    still awaited afterwards, and when it answers with rows whose
    timestamps all parse, the buffer is replaced by these rows, sorted and
    with their formatted timestamps attached. *)
Theorem X8_bulk_load_outlives_teardown (p : Page) (request : nat)
  (q : SelectQuery) (rows : list SensorRow.t) :
  reachable p ->
  find (fun e => fst e =? request) (selects p) = Some (request, q) ->
  length rows <= q_limit q ->
  dated rows ->
  exists rerun reloaded,
    step Rerun p = Some rerun
    /\ find (fun e => fst e =? request) (selects rerun) = Some (request, q)
    /\ step (Selected request (ok rows)) rerun = Some reloaded
    /\ data reloaded = map add_wib (Array_sort byTimestamp rows)
    /\ StronglySorted not_after (data reloaded).
Proof.
  intros Hr Hfind Hlen Hdated.
  assert (Hh : honours q (ok rows) = true)
    by (unfold honours; cbn; now apply Nat.leb_le).
  destruct (cleanup_keeps_selects p) as (Hs & Hf & _ & _).
  assert (Hlt : request < fresh p).
  { pose proof (reachable_selects_numbered Hr) as Hn.
    unfold selects_numbered in Hn. rewrite Forall_forall in Hn.
    apply find_some in Hfind. destruct Hfind as [Hin _].
    exact (Hn _ Hin). }
  assert (E : find (fun e => fst e =? request)
                (selects (effect_run (effect_cleanup p)))
              = Some (request, q)).
  { unfold effect_run, fetchInitial_start.
    destruct DEMO_MODE; fields; rewrite ?Hs, ?Hf; [exact Hfind |].
    cbn [find fst].
    replace (fresh p =? request) with false
      by (symmetry; apply Nat.eqb_neq; lia).
    exact Hfind. }
  do 2 eexists. split; [reflexivity |]. split; [exact E |].
  unfold step. rewrite E, Hh.
  split; [reflexivity |]. split; [reflexivity |].
  rewrite fetchInitial_resume_ok.
  now apply (proj1 (proj2 (proj2 (proj2 (bulk_buffer rows))))).
Qed.

(** X9. Moving a control stores exactly the number it is given, without
    clamping it to the row's range, and leaves the other three targets, the
    buffer, the saving flag and the alerts as they were. *)
Theorem X9_change_sets_one_target (p : Page) (k : MetricKey) (v : Q) :
  exists p',
    step (Change k v) p = Some p'
    /\ target (setpoint p') k = v
    /\ (forall k', k' <> k ->
                   target (setpoint p') k' = target (setpoint p) k')
    /\ data p' = data p
    /\ savingSetpoint p' = savingSetpoint p
    /\ alerts p' = alerts p.
Proof.
  eexists. split; [reflexivity |].
  assert (E : setpoint (sync_demoBase (setpoint p)
                          (setSetpoint (fun s => set_target s k v) p))
              = set_target (setpoint p) k v)
    by (unfold sync_demoBase; page_cases; reflexivity).
  rewrite E. repeat split.
  - destruct k; reflexivity.
  - intros k' Hk. destruct k, k'; try reflexivity; congruence.
  - unfold sync_demoBase; page_cases; reflexivity.
  - unfold sync_demoBase; page_cases; reflexivity.
  - unfold sync_demoBase; page_cases; reflexivity.
Qed.

(** X10. In demo mode a successful save sets the demo baseline to the
    targets as they were when the button was clicked: a control moved
    while the upsert was in flight is kept in the setpoint but not in the
    baseline. *)
Theorem X10_save_pins_baseline_to_click (p : Page) (now : Z)
  (k : MetricKey) (v : Q) :
  DEMO_MODE = true -> savingSetpoint p = false ->
  exists p',
    run [Save now; Change k v; Upserted (ok tt)] p = Some p'
    /\ demoBase p' = setpoint p
    /\ setpoint p' = set_target (setpoint p) k v
    /\ savingSetpoint p' = false.
Proof.
  intros Hd Hs.
  set (p1 := handleSaveSetpoint_start now p).
  set (p2 := sync_demoBase (setpoint p1)
               (setSetpoint (fun s => set_target s k v) p1)).
  assert (S1 : step (Save now) p = Some p1)
    by (unfold step; rewrite Hs; reflexivity).
  assert (S2 : step (Change k v) p1 = Some p2) by reflexivity.
  pose proof (edit_events_frame _ _ S2) as [_ U2]. cbv beta iota in U2.
  assert (E2 : setpoint p2 = set_target (setpoint p) k v)
    by (unfold p2, sync_demoBase; page_cases; reflexivity).
  eexists. split; [| split; [| split]].
  - cbn [run]. rewrite S1, S2. unfold step. rewrite U2.
    unfold p1, handleSaveSetpoint_start. fields. reflexivity.
  - unfold handleSaveSetpoint_resume. rewrite Hd. reflexivity.
  - unfold handleSaveSetpoint_resume. rewrite Hd. fields. exact E2.
  - reflexivity.
Qed.

(** X11. The saving flag is up exactly while an upsert is in flight, and
    that upsert carries the four targets captured at the click under the
    key 1.  While the flag is up a second save cannot start, and every
    answer to the upsert takes the flag down. *)
Theorem X11_saving_flag_tracks_upsert (p : Page) :
  reachable p ->
  saving_tracks_upsert p
  /\ (savingSetpoint p = true ->
      (forall now, step (Save now) p = None)
      /\ (forall resp, exists p',
            step (Upserted resp) p = Some p'
            /\ savingSetpoint p' = false
            /\ upsert p' = None)).
Proof.
  intros Hr. pose proof (reachable_saving Hr) as H.
  split; [exact H |]. intros Hs. split.
  - intros now. unfold step. now rewrite Hs.
  - intros resp. unfold saving_tracks_upsert in H. unfold step.
    destruct (upsert p) as [[captured row] |]; [| congruence].
    eexists. split; [reflexivity |].
    unfold handleSaveSetpoint_resume.
    destruct (Response.error resp), DEMO_MODE; split; reflexivity.
Qed.

(** X12. The shipped mode never generates a reading: on every reachable
    page no interval is registered, so no tick can be delivered, and the
    demo baseline is still the initial one. *)
Theorem X12_real_mode_never_generates (p : Page) :
  DEMO_MODE = false -> reachable p ->
  intervals p = []
  /\ demoBase p = initial_setpoint
  /\ (forall interval w, step (Tick interval w) p = None).
Proof.
  intros Hd Hr. destruct (real_page_invariant Hd Hr) as (H1 & H2 & _).
  repeat split; auto. intros. unfold step. now rewrite H1.
Qed.

(** X13. In the shipped mode every reading in the buffer carries the
    formatted form of its own timestamp, whether it came by bulk load or
    by push. *)
Theorem X13_buffered_rows_carry_their_wib (p : Page) :
  DEMO_MODE = false -> reachable p -> Forall wib_matches (data p).
Proof.
  intros Hd Hr. now destruct (real_page_invariant Hd Hr) as (_ & _ & H).
Qed.

(** X16. Changing a target in demo mode does not clear the history: once
    the effect has run again, the next tick appends to the buffer as it
    was, and each measurement of the new reading lies between the new
    target minus and plus its half-width as binary64 evaluates them. *)
Theorem X16_baseline_change_keeps_history (p : Page) (k : MetricKey)
  (v : Q) (w : World) :
  DEMO_MODE = true -> fair w ->
  same_targets (setpoint p) (set_target (setpoint p) k v) = false ->
  let base := set_target (setpoint p) k v in
  exists p' r,
    run [Change k v; Rerun; Tick (fresh p) w] p = Some p'
    /\ data p' = fst (tick base (data p) w)
    /\ last_row (data p') = Some r
    /\ within64 0.3 (Setpoint.suhu base) (SensorRow.suhu r)
    /\ within64 1 (Setpoint.kelembapan base) (SensorRow.kelembapan r)
    /\ within64 5 (Setpoint.cahaya base) (SensorRow.cahaya r)
    /\ within64 2 (Setpoint.suara base) (SensorRow.suara r).
Proof.
  intros Hd Hfair Hneq base.
  set (p1 := sync_demoBase (setpoint p)
               (setSetpoint (fun s => set_target s k v) p)).
  assert (E1 : demoBase p1 = base /\ data p1 = data p /\ fresh p1 = fresh p).
  { unfold p1, sync_demoBase. rewrite Hd. fields. rewrite Hneq.
    repeat split; reflexivity. }
  destruct E1 as (B1 & D1 & F1).
  destruct (rerun_registers_interval p1 Hd) as [Hfind D2].
  rewrite F1, B1 in Hfind. rewrite D1 in D2.
  exists (setData (fun prev => fst (tick base prev w))
            (effect_run (effect_cleanup p1))).
  exists (fst (generateDemoData base (last_row (data p)) w)).
  split; [| split; [| split]].
  - cbn [run]. change (step (Change k v) p) with (Some p1). cbv beta iota.
    change (step Rerun p1) with (Some (effect_run (effect_cleanup p1))).
    cbv beta iota. unfold step. now rewrite Hfind.
  - fields. now rewrite D2.
  - fields. rewrite D2. apply tick_last.
  - now apply generateDemoData_band.
Qed.

(** X18. In demo mode the buffer never shrinks: no event makes it
    shorter, so once the first tick has landed the charts are rendered and
    stay rendered. *)
Theorem X18_demo_buffer_never_shrinks (p p' : Page) (e : Event) :
  DEMO_MODE = true -> reachable p -> step e p = Some p' ->
  length (data p) <= length (data p')
  /\ (shows_chart p = true -> shows_chart p' = true).
Proof.
  intros Hd Hr Hstep.
  destruct (demo_page_invariant Hd Hr) as (I1 & I2 & I3 & I4).
  destruct (demo_page_invariant Hd (reach_step _ Hr Hstep))
    as (_ & _ & _ & I4').
  assert (Hlen : length (data p) <= length (data p')).
  { pose proof (store_events_frame _ _ Hstep) as F.
    destruct e; cbv beta iota in F;
      try (destruct F as (-> & _); lia); clear F; step_inv Hstep.
    - handlers. rewrite Hd.
      destruct (cleanup p) as [[i | c] |]; fields; lia.
    - handlers. destruct (cleanup p) as [[i | c] |]; fields; lia.
    - fields. rewrite tick_length. lia.
    - match goal with
      | E : find _ (selects p) = Some _ |- _ => rewrite I3 in E; discriminate E
      end.
    - match goal with
      | E : existsb _ (channels p) = true |- _ =>
          rewrite I2 in E; discriminate E
      end. }
  split; [exact Hlen |].
  unfold shows_chart. rewrite I4, I4'. cbn [negb andb].
  rewrite !Nat.ltb_lt. lia.
Qed.

End PageMore.

(** ** The further properties on sample pages *)

Lemma fair_sample_world : fair sample_world.
Proof. intros n. unfold Qle, Qlt. simpl. lia. Defined.

Lemma reachable_shipped_page :
  reachable (host := sample_host) (build := shipped) shipped_page.
Proof. exact (@reach_mount sample_host shipped). Defined.

Lemma reachable_demo_page :
  reachable (host := sample_host) (build := demo_build) demo_page.
Proof. exact (@reach_mount sample_host demo_build). Defined.

Lemma dated_sample_rows : dated (host := sample_host) sample_rows.
Proof. repeat constructor; discriminate. Defined.

Lemma newest_first_sample_rows : newest_first (host := sample_host) sample_rows.
Proof.
  unfold newest_first, sample_rows.
  repeat (apply SSorted_cons || apply SSorted_nil
          || apply Forall_cons || apply Forall_nil);
    vm_compute; reflexivity.
Defined.

(** X1 on the page as the demo build mounts it. *)
Lemma X1_demo_mode_is_self_contained_witness :
  DEMO_MODE (Build := demo_build) = true
  /\ reachable (host := sample_host) (build := demo_build) demo_page
  /\ step (host := sample_host) (build := demo_build)
       (Inserted 1 (sample_row 7 "1700000007000" None)) demo_page = None.
Proof.
  split; [reflexivity |]. split; [exact reachable_demo_page |].
  exact (proj2 (proj2 (proj2
           (@X1_demo_mode_is_self_contained sample_host demo_build demo_page
              eq_refl reachable_demo_page))) 1
           (sample_row 7 "1700000007000" None)).
Defined.

(** X4 on the sample rows. *)
Lemma X4_bulk_load_reverses_answer_witness :
  newest_first (host := sample_host) sample_rows
  /\ data (fetchInitial_resume (host := sample_host) (ok sample_rows) blank)
     = sample_buffer.
Proof.
  split; [exact newest_first_sample_rows |].
  exact (proj1 (@X4_bulk_load_reverses_answer sample_host sample_rows blank
                  newest_first_sample_rows)).
Defined.

(** X5 on the page as the shipped build mounts it: the select numbered 0
    is awaited, and an answer with the sample rows takes the flag down. *)
Lemma X5_loading_flag_is_cleared_witness :
  loadingData shipped_page = true
  /\ exists request q,
       find (fun e => fst e =? request) (selects shipped_page)
       = Some (request, q)
       /\ forall resp, honours q resp = true ->
          exists p',
            step (host := sample_host) (build := shipped)
              (Selected request resp) shipped_page = Some p'
            /\ loadingData p' = false.
Proof.
  split; [reflexivity |].
  exact (@X5_loading_flag_is_cleared sample_host shipped shipped_page
           reachable_shipped_page eq_refl).
Defined.

(** X6 on the page as the shipped build mounts it. *)
Lemma X6_push_survives_failed_bulk_load_witness :
  exists pushed settled,
    step (host := sample_host) (build := shipped)
      (Inserted 1 (sample_row 7 "1700000007000" None)) shipped_page
    = Some pushed
    /\ step (host := sample_host) (build := shipped)
         (Selected 0 (failed "down")) pushed = Some settled
    /\ data settled
       = onInsert (host := sample_host)
           (sample_row 7 "1700000007000" None) (data shipped_page)
    /\ loadingData settled = false.
Proof.
  refine (@X6_push_survives_failed_bulk_load sample_host shipped shipped_page
            1 0 sensor_logs_query (sample_row 7 "1700000007000" None)
            (failed "down") _ _ _ _).
  - simpl; auto.
  - reflexivity.
  - reflexivity.
  - left; discriminate.
Defined.

(** X7 on the page as the shipped build mounts it. *)
Lemma X7_one_live_feed_resource_witness :
  length (intervals shipped_page) + length (channels shipped_page) <= 1.
Proof.
  exact (proj1 (proj2 (@X7_one_live_feed_resource sample_host shipped
                         shipped_page reachable_shipped_page))).
Defined.

(** X8 on the page as the shipped build mounts it. *)
Lemma X8_bulk_load_outlives_teardown_witness :
  dated (host := sample_host) sample_rows
  /\ exists rerun reloaded,
       step (host := sample_host) (build := shipped) Rerun shipped_page
       = Some rerun
       /\ find (fun e => fst e =? 0) (selects rerun)
          = Some (0, sensor_logs_query)
       /\ step (host := sample_host) (build := shipped)
            (Selected 0 (ok sample_rows)) rerun = Some reloaded
       /\ data reloaded
          = map (add_wib (host := sample_host))
              (Array_sort (byTimestamp (host := sample_host)) sample_rows)
       /\ StronglySorted (not_after (host := sample_host)) (data reloaded).
Proof.
  split; [exact dated_sample_rows |].
  refine (@X8_bulk_load_outlives_teardown sample_host shipped shipped_page 0
            sensor_logs_query sample_rows reachable_shipped_page
            _ _ dated_sample_rows).
  - reflexivity.
  - simpl; lia.
Defined.

(** X10 on the page as the demo build mounts it. *)
Lemma X10_save_pins_baseline_to_click_witness :
  exists p',
    run (host := sample_host) (build := demo_build)
      [Save 0%Z; Change K_suhu 30%Q; Upserted (ok tt)] demo_page = Some p'
    /\ demoBase p' = setpoint demo_page
    /\ setpoint p' = set_target (setpoint demo_page) K_suhu 30%Q
    /\ savingSetpoint p' = false.
Proof.
  exact (@X10_save_pins_baseline_to_click sample_host demo_build demo_page
           0%Z K_suhu 30%Q eq_refl eq_refl).
Defined.

(** X11 on the mounted page after a click on the save button. *)
Lemma X11_saving_flag_tracks_upsert_witness :
  savingSetpoint (handleSaveSetpoint_start (host := sample_host) 0 shipped_page)
  = true
  /\ forall now,
       step (host := sample_host) (build := shipped) (Save now)
         (handleSaveSetpoint_start (host := sample_host) 0 shipped_page)
       = None.
Proof.
  split; [reflexivity |].
  assert (R : reachable (host := sample_host) (build := shipped)
                (handleSaveSetpoint_start (host := sample_host) 0
                   shipped_page)).
  { eapply reach_step; [exact reachable_shipped_page |].
    instantiate (1 := Save 0%Z). reflexivity. }
  exact (proj1 (proj2 (@X11_saving_flag_tracks_upsert sample_host shipped _ R)
                  eq_refl)).
Defined.

(** X12 on the page as the shipped build mounts it. *)
Lemma X12_real_mode_never_generates_witness :
  DEMO_MODE (Build := shipped) = false
  /\ step (host := sample_host) (build := shipped) (Tick 1 sample_world)
       shipped_page = None.
Proof.
  split; [reflexivity |].
  exact (proj2 (proj2 (@X12_real_mode_never_generates sample_host shipped
                         shipped_page eq_refl reachable_shipped_page))
           1 sample_world).
Defined.

(** X13 on the page that holds the three bulk-loaded sample rows and one
    pushed reading. *)
Lemma X13_buffered_rows_carry_their_wib_witness :
  DEMO_MODE (Build := shipped) = false
  /\ reachable (host := sample_host) (build := shipped) loaded_page
  /\ length (data loaded_page) = 4
  /\ Forall (wib_matches (host := sample_host)) (data loaded_page).
Proof.
  split; [reflexivity |]. split; [exact reachable_loaded_page |].
  split; [vm_compute; reflexivity |].
  exact (@X13_buffered_rows_carry_their_wib sample_host shipped loaded_page
           eq_refl reachable_loaded_page).
Defined.

(** X14 on the sample rows. *)
Lemma X14_bulk_load_latest_is_newest_witness :
  dated (host := sample_host) sample_rows
  /\ sample_rows <> []
  /\ exists newest,
       In newest sample_rows
       /\ latest (fetchInitial_resume (host := sample_host) (ok sample_rows)
                    blank)
          = Some (add_wib (host := sample_host) newest)
       /\ (forall x, In x sample_rows ->
                     not_after (host := sample_host) x newest)
       /\ (forall k,
             card (host := sample_host)
               (fetchInitial_resume (host := sample_host) (ok sample_rows)
                  blank) k
             = MetricCard (host := sample_host) (metric newest k)).
Proof.
  assert (N : sample_rows <> []) by discriminate.
  split; [exact dated_sample_rows |]. split; [exact N |].
  exact (@X14_bulk_load_latest_is_newest sample_host sample_rows blank
           dated_sample_rows N).
Defined.

(** X16 on the page as the demo build mounts it, the temperature target
    moved to 30. *)
Lemma X16_baseline_change_keeps_history_witness :
  fair sample_world
  /\ same_targets (setpoint demo_page)
       (set_target (setpoint demo_page) K_suhu 30%Q) = false
  /\ exists p' r,
       run (host := sample_host) (build := demo_build)
         [Change K_suhu 30%Q; Rerun; Tick (fresh demo_page) sample_world]
         demo_page = Some p'
       /\ last_row (data p') = Some r
       /\ within64 0.3 30 (SensorRow.suhu r).
Proof.
  split; [exact fair_sample_world |]. split; [reflexivity |].
  destruct (@X16_baseline_change_keeps_history sample_host demo_build
              demo_page K_suhu 30%Q sample_world eq_refl fair_sample_world
              eq_refl)
    as (p' & r & H1 & _ & H3 & H4 & _).
  exists p', r. split; [exact H1 |]. split; [exact H3 | exact H4].
Defined.

(** X17 on the sample buffer and a later reading. *)
Lemma X17_in_order_push_keeps_order_witness :
  StronglySorted (not_after (host := sample_host)) sample_buffer
  /\ StronglySorted (not_after (host := sample_host))
       (onInsert (host := sample_host) (sample_row 7 "1700000007000" None)
          sample_buffer).
Proof.
  assert (S : StronglySorted (not_after (host := sample_host)) sample_buffer).
  { unfold sample_buffer, sample_rows. cbn [rev app map].
    repeat (apply SSorted_cons || apply SSorted_nil
            || apply Forall_cons || apply Forall_nil);
      vm_compute; discriminate. }
  split; [exact S |].
  apply (@X17_in_order_push_keeps_order sample_host); [exact S |].
  intros l E. vm_compute in E. apply Some_inj in E. subst l.
  vm_compute. discriminate.
Defined.

(** X18 on the first tick after the demo build mounted the page. *)
Lemma X18_demo_buffer_never_shrinks_witness :
  exists p',
    step (host := sample_host) (build := demo_build) (Tick 0 sample_world)
      demo_page = Some p'
    /\ length (data demo_page) <= length (data p').
Proof.
  eexists. split; [vm_compute; reflexivity |].
  refine (proj1 (@X18_demo_buffer_never_shrinks sample_host demo_build
                   demo_page _ (Tick 0 sample_world) eq_refl
                   reachable_demo_page _)).
  vm_compute; reflexivity.
Defined.
